(** * Trading_Analysis: the signal kernel of [Analisi_con_dash_html.py]

    A shallow embedding of the computational kernel of the dashboard:
    [generate_buy_sell_signals], the three indicator pipelines
    ([get_macd], [get_rsi], [get_bollinger_bands]), the orchestrator
    [set_technical_indicators] and the KPI block of [index].

    Prices are IEEE-754 binary64 values ([spec_float] at precision 53),
    a pandas [DataFrame] is a row count with a finite map from column
    names to columns, Python exceptions are the [Raise] branch of an error
    monad, and the in-place mutation of the frame is explicit state
    passing. *)

From Stdlib Require Import ZArith Floats.SpecFloat.
From stdpp Require Import base option list strings gmap fin_maps.

(** ** binary64 arithmetic, as numpy's [float64] scalars have it *)
Module Float64.

Definition float := spec_float.

Definition prec : Z := 53.
Definition emax : Z := 1024.

(** [np.nan]: the marker of a missing value. *)
Definition nan : float := S754_nan.

(** [pd.isna] on a float. *)
Definition isna (x : float) : bool :=
  match x with S754_nan => true | _ => false end.

(** An integer literal taken to binary64 (exact below 2^53). *)
Definition of_Z (z : Z) : float := binary_normalize prec emax z 0 false.

Definition ltb : float → float → bool := SFltb.
Definition leb : float → float → bool := SFleb.
Definition div : float → float → float := SFdiv prec emax.
Definition sub : float → float → float := SFsub prec emax.
Definition mul : float → float → float := SFmul prec emax.

(** [x == 0.0], true of both signed zeros. *)
Definition is_zero (x : float) : bool :=
  match x with S754_zero _ => true | _ => false end.

Definition is_inf (x : float) : bool :=
  match x with S754_infinity _ => true | _ => false end.

End Float64.
Import Float64.

(** ** Exceptions and the error monad *)

Inductive exn : Type :=
  | KeyError (key : string)
  | IndexError
  | ValueError
  | TypeError
  | AttributeError.

Inductive result (A : Type) : Type :=
  | Ok (a : A)
  | Raise (e : exn).
Arguments Ok {A} a.
Arguments Raise {A} e.

#[global] Instance result_ret : MRet result := λ A a, Ok a.
#[global] Instance result_bind : MBind result := λ A B f m,
  match m with Ok a => f a | Raise e => Raise e end.

(** [for i in l: st = body(st, i)], stopping at the first exception. *)
Fixpoint for_each {S : Type} (body : S → nat → result S)
    (l : list nat) (st : S) : result S :=
  match l with
  | [] => Ok st
  | i :: l' => st' ← body st i; for_each body l' st'
  end.

(** [range(n)] *)
Definition range (n : nat) : list nat := seq 0 n.

(** ** pandas frames *)

(** A column is a float64 array or an object array of [None]/[str]. *)
Inductive column : Type :=
  | FloatCol (values : list float)
  | ObjCol (objects : list (option string)).

Definition col_len (c : column) : nat :=
  match c with FloatCol l => length l | ObjCol l => length l end.

(** [nrows] is the length of the index, [len(dataframe)]. *)
Record DataFrame : Type := mkDataFrame {
  nrows : nat;
  columns : gmap string column
}.

(** [pd.DataFrame()] *)
Definition empty_frame : DataFrame := mkDataFrame 0 ∅.

(** [dataframe[key]]: [KeyError] when the column is absent. *)
Definition getitem (df : DataFrame) (key : string) : result column :=
  match columns df !! key with
  | Some c => Ok c
  | None => Raise (KeyError key)
  end.

(** The float64 view of a column. The program only reads numeric columns;
    reading an object column as numbers is reported as [TypeError]. *)
Definition float_values (c : column) : result (list float) :=
  match c with
  | FloatCol l => Ok l
  | ObjCol _ => Raise TypeError
  end.

(** [series.iloc[i]] and [series.values[i]] for [i >= 0]:
    [IndexError] out of range. *)
Definition at_pos (c : column) (i : nat) : result float :=
  l ← float_values c;
  match l !! i with
  | Some x => Ok x
  | None => Raise IndexError
  end.

(** When the frame has no rows yet and a non-empty value is assigned, pandas
    first gives the frame the index of the value; the columns already
    there are re-indexed, which leaves only missing entries in them. *)
Definition reindex_missing (n : nat) (c : column) : column :=
  match c with
  | FloatCol _ => FloatCol (replicate n nan)
  | ObjCol _ => ObjCol (replicate n None)
  end.

Definition ensure_valid_index (df : DataFrame) (len : nat) : DataFrame :=
  if decide (nrows df = 0 ∧ 0 < len)
  then mkDataFrame len (reindex_missing len <$> columns df)
  else df.

(** [dataframe[key] = np.array(...)]: the array must have one entry per
    row, otherwise pandas raises [ValueError]. *)
Definition setitem_array (df : DataFrame) (key : string) (c : column)
    : result DataFrame :=
  let df := ensure_valid_index df (col_len c) in
  if decide (col_len c = nrows df)
  then Ok (mkDataFrame (nrows df) (<[key := c]> (columns df)))
  else Raise ValueError.

(** A series is aligned on the index of the frame: rows the series lacks
    are missing, rows the frame lacks are dropped. Row labels are row
    positions here. *)
Definition align (n : nat) (s : list float) : list float :=
  take n s ++ replicate (n - length s) nan.

(** [dataframe[key] = series] *)
Definition setitem_series (df : DataFrame) (key : string) (s : list float)
    : DataFrame :=
  let df := ensure_valid_index df (length s) in
  mkDataFrame (nrows df) (<[key := FloatCol (align (nrows df) s)]> (columns df)).

(** [d[key].values[x]] *)
Definition values_at (d : DataFrame) (key : string) (x : nat) : result float :=
  c ← getitem d key; at_pos c x.

(** ** [generate_buy_sell_signals] (source lines 37-63) *)

(** The four locals the loop mutates. *)
Record loop_state : Type := mkLoop {
  last_signal : option string;
  indicator_state : list (option string);
  buy : list float;
  sell : list float
}.

(** A condition is a Python callable of the step and the frame. *)
Definition condition : Type := nat → DataFrame → result bool.

(** One iteration of the [for] loop, lines 47-58. *)
Definition loop_body (condition_buy condition_sell : condition)
    (dataframe : DataFrame) (st : loop_state) (i : nat) : result loop_state :=
  cb ← condition_buy i dataframe;
  st' ← (if cb && bool_decide (last_signal st ≠ Some "Buy") then
           close ← getitem dataframe "Close";
           c ← at_pos close i;
           Ok (mkLoop (Some "Buy") (indicator_state st)
                      (buy st ++ [c]) (sell st ++ [nan]))
         else
           cs ← condition_sell i dataframe;
           if cs && bool_decide (last_signal st = Some "Buy") then
             close ← getitem dataframe "Close";
             c ← at_pos close i;
             Ok (mkLoop (Some "Sell") (indicator_state st)
                        (buy st ++ [nan]) (sell st ++ [c]))
           else
             Ok (mkLoop (last_signal st) (indicator_state st)
                        (buy st ++ [nan]) (sell st ++ [nan])));
  Ok (mkLoop (last_signal st') (indicator_state st' ++ [last_signal st'])
             (buy st') (sell st')).

(** Lines 41-58: the locals after the whole scan. *)
Definition scan (condition_buy condition_sell : condition)
    (dataframe : DataFrame) : result loop_state :=
  for_each (loop_body condition_buy condition_sell dataframe)
           (range (nrows dataframe)) (mkLoop None [] [] []).

Definition generate_buy_sell_signals (condition_buy condition_sell : condition)
    (dataframe : DataFrame) (strategy : string)
    : result (option string * DataFrame) :=
  st ← scan condition_buy condition_sell dataframe;
  df1 ← setitem_array dataframe (strategy +:+ "_Indicator")
                      (ObjCol (indicator_state st));
  df2 ← setitem_array df1 (strategy +:+ "_Buy") (FloatCol (buy st));
  df3 ← setitem_array df2 (strategy +:+ "_Sell") (FloatCol (sell st));
  Ok (last_signal st, df3).

(** ** The indicator pipelines (source lines 66-125) *)

(** The [ta] indicator library is not part of the repository: what its
    classes compute from the closing prices is a parameter. Each field is
    one constructor call followed by one accessor, e.g.
    [MACD(close, window_slow, window_fast, window_sign).macd()]. *)
Class TaLibrary : Type := {
  MACD_macd : list float → Z → Z → Z → list float;
  MACD_macd_diff : list float → Z → Z → Z → list float;
  MACD_macd_signal : list float → Z → Z → Z → list float;
  RSIIndicator_rsi : list float → Z → list float;
  BollingerBands_mavg : list float → Z → Z → list float;
  BollingerBands_hband : list float → Z → Z → list float;
  BollingerBands_lband : list float → Z → Z → list float
}.

Record Company : Type := mkCompany {
  symbol : string;
  technical_indicators : option DataFrame;
  prices : option (list float)
}.

(** Using [company.prices] as a series, or [company.technical_indicators]
    as a frame, while it is still [None]. *)
Definition the_prices (company : Company) : result (list float) :=
  match prices company with Some p => Ok p | None => Raise AttributeError end.

Definition the_frame (company : Company) : result DataFrame :=
  match technical_indicators company with
  | Some df => Ok df
  | None => Raise TypeError
  end.

(** [x or y] for [x] a string or [None]: [y] when [x] is [None] or empty. *)
Definition py_or (x : option string) (y : string) : string :=
  match x with
  | None => y
  | Some EmptyString => y
  | Some s => s
  end.

(** The frame is shared with the company object: what a pipeline writes
    into [df] is written into [company.technical_indicators]. *)
Definition store_frame (company : Company) (df : DataFrame) : Company :=
  mkCompany (symbol company) (Some df) (prices company).

Definition get_macd `{TaLibrary} (company : Company) : result (Company * string) :=
  let window_slow := 26%Z in
  let window_fast := 12%Z in
  let signal := 9%Z in
  p ← the_prices company;
  df ← the_frame company;
  let df := setitem_series df "MACD" (MACD_macd p window_slow window_fast signal) in
  let df := setitem_series df "MACD_Histogram"
                           (MACD_macd_diff p window_slow window_fast signal) in
  let df := setitem_series df "MACD_Signal"
                           (MACD_macd_signal p window_slow window_fast signal) in
  r ← generate_buy_sell_signals
        (λ x d, a ← values_at d "MACD" x; b ← values_at d "MACD_Signal" x;
                Ok (ltb a b))
        (λ x d, a ← values_at d "MACD" x; b ← values_at d "MACD_Signal" x;
                Ok (ltb b a))
        df "MACD";
  Ok (store_frame company r.2, py_or r.1 "None").

Definition get_rsi `{TaLibrary} (company : Company)
    (rsi_time_period low_rsi high_rsi : Z) : result (Company * string) :=
  p ← the_prices company;
  df ← the_frame company;
  let df := setitem_series df "RSI" (RSIIndicator_rsi p rsi_time_period) in
  r ← generate_buy_sell_signals
        (λ x d, a ← values_at d "RSI" x; Ok (ltb a (of_Z low_rsi)))
        (λ x d, a ← values_at d "RSI" x; Ok (ltb (of_Z high_rsi) a))
        df "RSI";
  Ok (store_frame company r.2, py_or r.1 "None").

Definition get_bollinger_bands `{TaLibrary} (company : Company) (window : Z)
    : result (Company * string) :=
  p ← the_prices company;
  df ← the_frame company;
  let df := setitem_series df "Bollinger_Bands_Middle"
                           (BollingerBands_mavg p window 2) in
  let df := setitem_series df "Bollinger_Bands_Upper"
                           (BollingerBands_hband p window 2) in
  let df := setitem_series df "Bollinger_Bands_Lower"
                           (BollingerBands_lband p window 2) in
  r ← generate_buy_sell_signals
        (λ x d, a ← values_at d "Close" x;
                b ← values_at d "Bollinger_Bands_Lower" x; Ok (ltb a b))
        (λ x d, a ← values_at d "Close" x;
                b ← values_at d "Bollinger_Bands_Upper" x; Ok (ltb b a))
        df "Bollinger_Bands";
  Ok (store_frame company r.2, py_or r.1 "None").

(** The orchestrator. Line 117 assigns [company.prices] to the [Close]
    column of a fresh frame; the prices are taken as a series from there
    on, so a company whose prices are still [None] fails here rather than
    one line later. The defaults of [get_rsi] and [get_bollinger_bands]
    are written out. *)
Definition set_technical_indicators `{TaLibrary} (company : Company)
    : result (Company * gmap string string) :=
  p ← the_prices company;
  let company := store_frame company (setitem_series empty_frame "Close" p) in
  m ← get_macd company;
  r ← get_rsi m.1 20 40 70;
  b ← get_bollinger_bands r.1 20;
  Ok (b.1, {[ "MACD" := m.2; "RSI" := r.2; "BOLL" := b.2 ]}).

(** ** The KPI block of [index] (source lines 323-327) *)

(** [series.iloc[i]] with Python's negative positions. *)
Definition iloc (s : list float) (i : Z) : result float :=
  let n := Z.of_nat (length s) in
  let k := if (i <? 0)%Z then (i + n)%Z else i in
  if ((0 <=? k) && (k <? n))%Z
  then match s !! Z.to_nat k with
       | Some x => Ok x
       | None => Raise IndexError
       end
  else Raise IndexError.

(** The larger and the smaller of two numbers. *)
Definition fmax (a b : float) : float := if ltb a b then b else a.
Definition fmin (a b : float) : float := if ltb b a then b else a.

(** [series.max()] and [series.min()]: missing entries are skipped
    ([skipna=True]); with nothing left the result is NaN. *)
Definition reduce_skipna (op : float → float → float) (s : list float) : float :=
  match filter (λ x, isna x = false) s with
  | [] => nan
  | x :: rest => foldl op x rest
  end.

Definition series_max : list float → float := reduce_skipna fmax.
Definition series_min : list float → float := reduce_skipna fmin.

Record kpi : Type := mkKpi {
  last_price : float;
  high : float;
  low : float;
  change_pct : float;
  n_points : nat
}.

(** Lines 323-327. The operands of line 326 are numpy [float64] scalars:
    their division follows IEEE 754 and returns an infinity or NaN for a
    zero divisor (numpy emits a warning, no exception). [Raise] is what
    the [except Exception] of line 360 would catch. *)
Definition index_kpi (prices : list float) : result kpi :=
  last_price ← iloc prices (-1);
  let high := series_max prices in
  let low := series_min prices in
  l ← iloc prices (-1);
  f ← iloc prices 0;
  let change_pct := mul (sub (div l f) (of_Z 1)) (of_Z 100) in
  let n_points := length prices in
  Ok (mkKpi last_price high low change_pct n_points).

(** The example of the specification: prices 10, 9, 11, 12, 8. *)
Definition example_prices : list float := of_Z <$> [10; 9; 11; 12; 8]%Z.

Definition example_frame : DataFrame :=
  mkDataFrame 5 {[ "Close" := FloatCol example_prices ]}.

Definition close_below (k : Z) : condition := λ i d,
  c ← getitem d "Close"; x ← at_pos c i; Ok (ltb x (of_Z k)).

Definition close_above (k : Z) : condition := λ i d,
  c ← getitem d "Close"; x ← at_pos c i; Ok (ltb (of_Z k) x).

(** The two callables of the example, as predicates of the step. *)
Definition example_buy (i : nat) : bool :=
  match example_prices !! i with Some x => ltb x (of_Z 10) | None => false end.

Definition example_sell (i : nat) : bool :=
  match example_prices !! i with Some x => ltb (of_Z 11) x | None => false end.

(** A buy condition that holds nowhere on the example. *)
Definition example_no_buy (i : nat) : bool :=
  match example_prices !! i with Some x => ltb x (of_Z 5) | None => false end.

(** ** The rule of the specification, step by step *)

(** One step of the signal state machine: from the two condition values,
    the closing price and the current state to the new state and the two
    markers. *)
Inductive step_rule (buyCondition sellCondition : bool) (closePrice : float)
    (currentState : option string) : option string → float → float → Prop :=
  | rule_buy :
      buyCondition = true → currentState ≠ Some "Buy" →
      step_rule buyCondition sellCondition closePrice currentState
                (Some "Buy") closePrice nan
  | rule_sell :
      ¬ (buyCondition = true ∧ currentState ≠ Some "Buy") →
      sellCondition = true → currentState = Some "Buy" →
      step_rule buyCondition sellCondition closePrice currentState
                (Some "Sell") nan closePrice
  | rule_hold :
      ¬ (buyCondition = true ∧ currentState ≠ Some "Buy") →
      ¬ (sellCondition = true ∧ currentState = Some "Buy") →
      step_rule buyCondition sellCondition closePrice currentState
                currentState nan nan.

(** The state in force when step [i] is evaluated: [None] before step 0,
    [state[i-1]] afterwards. *)
Definition state_before (state : list (option string)) (i : nat)
    : option string :=
  match i with
  | O => None
  | S j => mjoin (state !! j)
  end.

(** The first [n] steps of a signal series follow the rule. *)
Definition follows_rule (buyCondition sellCondition : nat → bool)
    (closePrice : list float) (n : nat)
    (state : list (option string)) (buyMarker sellMarker : list float) : Prop :=
  ∀ i, i < n →
    ∃ c s bm sm,
      closePrice !! i = Some c ∧ state !! i = Some s ∧
      buyMarker !! i = Some bm ∧ sellMarker !! i = Some sm ∧
      step_rule (buyCondition i) (sellCondition i) c (state_before state i)
                s bm sm.

(** The table carries its closing prices, one per row. *)
Definition has_close (df : DataFrame) (closePrice : list float) : Prop :=
  columns df !! "Close" = Some (FloatCol closePrice) ∧
  length closePrice = nrows df.

(** A callable returns the value of a per-step predicate on every row. *)
Definition decides (c : condition) (df : DataFrame) (p : nat → bool) : Prop :=
  ∀ i, i < nrows df → c i df = Ok (p i).

(** The three columns a run writes for [strategy]. *)
Definition signal_columns (df : DataFrame) (strategy : string)
    (state : list (option string)) (buyMarker sellMarker : list float) : Prop :=
  columns df !! (strategy +:+ "_Indicator") = Some (ObjCol state) ∧
  columns df !! (strategy +:+ "_Buy") = Some (FloatCol buyMarker) ∧
  columns df !! (strategy +:+ "_Sell") = Some (FloatCol sellMarker).

(** A marker is missing when it is NaN. *)
Definition missing (x : float) : Prop := isna x = true.

(** The frame a successful run leaves behind. *)
Definition with_signals (df : DataFrame) (strategy : string)
    (state : list (option string)) (buyMarker sellMarker : list float)
    : DataFrame :=
  mkDataFrame (nrows df)
    (<[strategy +:+ "_Sell" := FloatCol sellMarker]>
       (<[strategy +:+ "_Buy" := FloatCol buyMarker]>
          (<[strategy +:+ "_Indicator" := ObjCol state]> (columns df)))).

(** What holds of the loop's locals after [n] iterations. *)
Definition scan_inv (buyCondition sellCondition : nat → bool)
    (closePrice : list float) (n : nat) (st : loop_state) : Prop :=
  length (indicator_state st) = n ∧ length (buy st) = n ∧
  length (sell st) = n ∧
  last_signal st = state_before (indicator_state st) n ∧
  follows_rule buyCondition sellCondition closePrice n
               (indicator_state st) (buy st) (sell st).

(** ** The price summary of the specification *)

(** [h] is the maximum of the series: one of its entries, and no entry
    that is a number exceeds it. On a series without NaN this is the
    ordinary maximum. *)
Definition is_max (h : float) (price : list float) : Prop :=
  h ∈ price ∧ ∀ x, x ∈ price → isna x = false → leb x h = true.

Definition is_min (l : float) (price : list float) : Prop :=
  l ∈ price ∧ ∀ x, x ∈ price → isna x = false → leb l x = true.

(** [(last / first - 1) * 100] *)
Definition percent_change (last first : float) : float :=
  mul (sub (div last first) (of_Z 1)) (of_Z 100).

(** The computation ends in an exception. *)
Definition raises {A : Type} (r : result A) : Prop := ∃ e, r = Raise e.

(** ** The orchestrator's result *)

(** The text of a last-signal entry: the literal "None" for the sentinel,
    the state's own string otherwise. *)
Definition signal_text (lastState : option string) : string :=
  match lastState with
  | None => "None"
  | Some s => s
  end.

(** Every column has one entry per row. *)
Definition wf_frame (df : DataFrame) : Prop :=
  ∀ k c, columns df !! k = Some c → col_len c = nrows df.

Definition float_column (df : DataFrame) (k : string) : Prop :=
  ∃ l, columns df !! k = Some (FloatCol l).

(** A frame the pipelines can run on. *)
Definition good_frame (df : DataFrame) : Prop :=
  wf_frame df ∧ float_column df "Close".

(** The table holds the state sequence of [strategy], and [lastState] is
    the state in force after its last row. *)
Definition records (df : DataFrame) (strategy : string)
    (lastState : option string) : Prop :=
  ∃ state,
    columns df !! (strategy +:+ "_Indicator") = Some (ObjCol state) ∧
    length state = nrows df ∧
    state_before state (nrows df) = lastState.

(** A callable raises on no row of the frame. *)
Definition total_on (c : condition) (df : DataFrame) : Prop :=
  ∀ i, i < nrows df → ∃ b, c i df = Ok b.

(** The truth values a callable returns, with [false] where it raises. *)
Definition values_of (c : condition) (df : DataFrame) (i : nat) : bool :=
  match c i df with
  | Ok b => b
  | Raise _ => false
  end.

(** A stand-in for the indicator library, for running the orchestrator on
    examples: every indicator echoes the closing prices. *)
Definition echo_ta : TaLibrary := {|
  MACD_macd p _ _ _ := p;
  MACD_macd_diff p _ _ _ := p;
  MACD_macd_signal p _ _ _ := p;
  RSIIndicator_rsi p _ := p;
  BollingerBands_mavg p _ _ := p;
  BollingerBands_hband p _ _ := p;
  BollingerBands_lband p _ _ := p
|}.

Definition example_company : Company :=
  mkCompany "AAPL" None (Some example_prices).


(** What the orchestrator returns on the example with the stand-in
    library. *)
Definition example_result : Company * gmap string string :=
  match @set_technical_indicators echo_ta example_company with
  | Ok r => r
  | Raise _ => (example_company, ∅)
  end.

(** ** Further vocabulary for the state machine *)

(** Step [i] opens a position: the state becomes Buy and was not Buy. *)
Definition buy_step (state : list (option string)) (i : nat) : Prop :=
  state !! i = Some (Some "Buy") ∧ state_before state i ≠ Some "Buy".

(** Step [i] closes a position: the state goes from Buy to Sell. *)
Definition sell_step (state : list (option string)) (i : nat) : Prop :=
  state !! i = Some (Some "Sell") ∧ state_before state i = Some "Buy".

(** A table of three rows without any column, and callables that do not
    read the table. *)
Definition bare_frame : DataFrame := mkDataFrame 3 ∅.

Definition at_step (k : nat) : condition := λ i _, Ok (bool_decide (i = k)).

Definition never : condition := λ _ _, Ok false.

(** A callable that raises [e] at row [k] and is [c] elsewhere. *)
Definition failing_at (k : nat) (e : exn) (c : condition) : condition :=
  λ i d, if decide (i = k) then Raise e else c i d.

(** ** The table the orchestrator builds *)

(** The entry of a series at a row, NaN outside the series. *)
Definition cell (l : list float) (i : nat) : float := default nan (l !! i).

(** The states and the two marker sequences of one strategy. *)
Record signal_series : Type := mkSeries {
  series_state : list (option string);
  series_buy : list float;
  series_sell : list float
}.

(** A library series written into a table of [n] rows. *)
Definition put_series (n : nat) (d : DataFrame) (key : string) (s : list float)
    : DataFrame :=
  mkDataFrame n (<[key := FloatCol (align n s)]> (columns d)).

Definition put_signals (d : DataFrame) (strategy : string) (x : signal_series)
    : DataFrame :=
  with_signals d strategy (series_state x) (series_buy x) (series_sell x).

(** The table for the prices [p], given the signal series of the three
    strategies: the columns in the order the orchestrator writes them. *)
Definition indicator_table `{TaLibrary} (p : list float)
    (macd rsi boll : signal_series) : DataFrame :=
  let n := length p in
  let d := mkDataFrame n {[ "Close" := FloatCol p ]} in
  let d := put_series n d "MACD" (MACD_macd p 26 12 9) in
  let d := put_series n d "MACD_Histogram" (MACD_macd_diff p 26 12 9) in
  let d := put_series n d "MACD_Signal" (MACD_macd_signal p 26 12 9) in
  let d := put_signals d "MACD" macd in
  let d := put_series n d "RSI" (RSIIndicator_rsi p 20) in
  let d := put_signals d "RSI" rsi in
  let d := put_series n d "Bollinger_Bands_Middle" (BollingerBands_mavg p 20 2) in
  let d := put_series n d "Bollinger_Bands_Upper" (BollingerBands_hband p 20 2) in
  let d := put_series n d "Bollinger_Bands_Lower" (BollingerBands_lband p 20 2) in
  put_signals d "Bollinger_Bands" boll.

(** The names of the columns of that table. *)
Definition table_columns : list string :=
  [ "Close"; "MACD"; "MACD_Histogram"; "MACD_Signal";
    "MACD_Indicator"; "MACD_Buy"; "MACD_Sell";
    "RSI"; "RSI_Indicator"; "RSI_Buy"; "RSI_Sell";
    "Bollinger_Bands_Middle"; "Bollinger_Bands_Upper"; "Bollinger_Bands_Lower";
    "Bollinger_Bands_Indicator"; "Bollinger_Bands_Buy"; "Bollinger_Bands_Sell" ].

(** The conditions of the three strategies, read from the columns of the
    table: row [i] of the series [a] against row [i] of [b], or against a
    threshold. *)
Definition below (a b : list float) (i : nat) : bool := ltb (cell a i) (cell b i).
Definition below_level (a : list float) (level : Z) (i : nat) : bool :=
  ltb (cell a i) (of_Z level).
Definition above_level (a : list float) (level : Z) (i : nat) : bool :=
  ltb (of_Z level) (cell a i).

(** ** The route [index] and [rsi_interpretation] (source lines 295-361) *)

(** What the route takes from its surroundings: Python's string methods
    and number formatting, the dates of the history's index, and the
    market-data provider. [history symbol period] stands for
    [yf.Ticker(symbol).history(period=period)], of which the route reads
    the index and the Close column; it may raise. *)
Class Runtime : Type := {
  date : Type;
  strftime : date → string;
  format_2f : float → string;
  format_1f : float → string;
  str_upper : string → string;
  str_strip : string → string;
  history : string → string → result (list (date * float))
}.

(** Lines 295-302. [format_1f val] is [f"{val:.1f}"]. *)
Definition rsi_interpretation `{Runtime} (val : float) : string :=
  if isna val then "N/A"
  else if ltb val (of_Z 30)
       then format_1f val +:+ " (Oversold - Consider Buying)"
  else if ltb (of_Z 70) val
       then format_1f val +:+ " (Overbought - Consider Selling)"
  else format_1f val +:+ " (Normal Range)".

(** The values of the JSON payload: [None], the integer 0 of line 338,
    or a float. *)
Inductive json : Type :=
  | JNull
  | JInt (z : Z)
  | JFloat (x : float).

(** [None if pd.isna(x) else float(x)] and [0 if pd.isna(x) else float(x)] *)
Definition null_or_float (x : float) : json :=
  if isna x then JNull else JFloat x.

Definition zero_or_float (x : float) : json :=
  if isna x then JInt 0 else JFloat x.

Module Payload.
  (** [data_payload], lines 331-343. *)
Record t : Type := mk {
  dates : list string;
  close : list json;
  price_buy : list json;
  price_sell : list json;
  macd : list json;
  macd_signal : list json;
  macd_hist : list json;
  rsi : list json;
  bb_mid : list json;
  bb_up : list json;
  bb_low : list json
}.
End Payload.

(** [ind.get(key, pd.Series([np.nan]*len(ind)))] *)
Definition get_or_missing (ind : DataFrame) (key : string) : column :=
  match columns ind !! key with
  | Some c => c
  | None => FloatCol (replicate (nrows ind) nan)
  end.

(** Lines 330-343. The index of [ind] is the index of the prices, so the
    dates are those of the history. *)
Definition data_payload `{Runtime} (index_dates : list date) (ind : DataFrame)
    : result Payload.t :=
  let dates := strftime <$> index_dates in
  close ← getitem ind "Close" ≫= float_values;
  price_buy ← float_values (get_or_missing ind "MACD_Buy");
  price_sell ← float_values (get_or_missing ind "MACD_Sell");
  macd ← getitem ind "MACD" ≫= float_values;
  macd_signal ← getitem ind "MACD_Signal" ≫= float_values;
  macd_hist ← getitem ind "MACD_Histogram" ≫= float_values;
  rsi ← getitem ind "RSI" ≫= float_values;
  bb_mid ← getitem ind "Bollinger_Bands_Middle" ≫= float_values;
  bb_up ← getitem ind "Bollinger_Bands_Upper" ≫= float_values;
  bb_low ← getitem ind "Bollinger_Bands_Lower" ≫= float_values;
  Ok (Payload.mk dates
        (null_or_float <$> close)
        (null_or_float <$> price_buy) (null_or_float <$> price_sell)
        (null_or_float <$> macd) (null_or_float <$> macd_signal)
        (zero_or_float <$> macd_hist)
        (null_or_float <$> rsi)
        (null_or_float <$> bb_mid) (null_or_float <$> bb_up)
        (null_or_float <$> bb_low)).

(** The two error texts of the route:
    [f"Nessun dato trovato per {symbol}"] and [f"Errore: {e}"]. *)
Inductive error_text : Type :=
  | NoData (symbol : string)
  | Errore (e : exn).

(** The variables handed to the template on success (the clock value
    [now] is left out). *)
Record dashboard : Type := mkDashboard {
  shown_last_price : string;
  shown_high : string;
  shown_low : string;
  shown_change_pct : string;
  shown_n_points : nat;
  shown_last_signals : gmap string string;
  data_json : Payload.t
}.

Inductive page : Type :=
  | ErrorPage (error : error_text) (symbol period : string)
  | DashboardPage (symbol period : string) (d : dashboard).

(** The body of the [try], lines 311-358. *)
Definition index_try `{TaLibrary} `{Runtime} (symbol period : string)
    : result page :=
  hist ← history symbol period;
  match hist with
  | [] => Ok (ErrorPage (NoData symbol) symbol period)
  | _ :: _ =>
      let company := mkCompany (str_upper symbol) None (Some (hist.*2)) in
      r ← set_technical_indicators company;
      let company := r.1 in
      let last_signals := r.2 in
      ind ← the_frame company;
      p ← the_prices company;
      k ← index_kpi p;
      data ← data_payload (hist.*1) ind;
      Ok (DashboardPage symbol period
            (mkDashboard (format_2f (last_price k)) (format_2f (high k))
                         (format_2f (low k)) (format_2f (change_pct k))
                         (n_points k) last_signals data))
  end.

(** The route: the request arguments [symbol] and [period] ([None] when
    absent) to the page rendered. *)
Definition index `{TaLibrary} `{Runtime} (arg_symbol arg_period : option string)
    : page :=
  let symbol := str_strip (str_upper (py_or arg_symbol "AAPL")) in
  let period := str_strip (py_or arg_period "1y") in
  match index_try symbol period with
  | Ok rendered => rendered
  | Raise e => ErrorPage (Errore e) symbol period
  end.

(** The payload of the table for the prices [p]. *)
Definition table_payload `{TaLibrary} `{Runtime} (index_dates : list date)
    (p : list float) (macd : signal_series) : Payload.t :=
  let n := length p in
  Payload.mk (strftime <$> index_dates)
    (null_or_float <$> p)
    (null_or_float <$> series_buy macd)
    (null_or_float <$> series_sell macd)
    (null_or_float <$> align n (MACD_macd p 26 12 9))
    (null_or_float <$> align n (MACD_macd_signal p 26 12 9))
    (zero_or_float <$> align n (MACD_macd_diff p 26 12 9))
    (null_or_float <$> align n (RSIIndicator_rsi p 20))
    (null_or_float <$> align n (BollingerBands_mavg p 20 2))
    (null_or_float <$> align n (BollingerBands_hband p 20 2))
    (null_or_float <$> align n (BollingerBands_lband p 20 2)).

(** A string ends with a given suffix. *)
Definition ends_with (suffix s : string) : Prop := ∃ pre, s = pre +:+ suffix.

(** A stand-in for the surroundings, for running the route on examples:
    dates are day numbers, every number is shown as "#", strings are left
    as they are, and the provider returns the example prices for every
    symbol but "NONE" (no rows) and "DOWN" (an exception). *)
Definition example_history (symbol period : string)
    : result (list (nat * float)) :=
  if decide (symbol = "DOWN") then Raise ValueError
  else if decide (symbol = "NONE") then Ok []
  else Ok (zip (seq 1 5) example_prices).

Definition example_runtime : Runtime := {|
  date := nat;
  strftime _ := "2024-01-01";
  format_2f _ := "#";
  format_1f _ := "#";
  str_upper s := s;
  str_strip s := s;
  history := example_history
|}.

(** * Proofs *)

(** ** Lemmas on the loop *)

Lemma for_each_snoc {S : Type} (body : S → nat → result S) l i st :
  for_each body (l ++ [i]) st = (for_each body l st ≫= λ st', body st' i).
Proof.
  revert st. induction l as [|j l IH]; intros st; simpl.
  - unfold mbind, result_bind. by destruct (body st i).
  - unfold mbind at 1 3, result_bind. destruct (body st j); [apply IH | done].
Qed.

Lemma state_before_snoc (state : list (option string)) s (i : nat) :
  i ≤ length state → state_before (state ++ [s]) i = state_before state i.
Proof.
  destruct i as [|j]; [done|]. intros Hj. simpl.
  by rewrite lookup_app_l by lia.
Qed.

Section Loop.
Variables (condition_buy condition_sell : condition) (dataframe : DataFrame).
Variables (buyCondition sellCondition : nat → bool).
Variable closePrice : list float.
Hypothesis Hclose : has_close dataframe closePrice.
Hypothesis Hbuy : decides condition_buy dataframe buyCondition.
Hypothesis Hsell : decides condition_sell dataframe sellCondition.

Lemma close_at i :
  i < nrows dataframe → ∃ c, closePrice !! i = Some c.
Proof.
  destruct Hclose as [_ Hlen]. intros Hi.
  apply lookup_lt_is_Some. lia.
Qed.

Lemma loop_body_ok st i c :
  i < nrows dataframe → closePrice !! i = Some c →
  ∃ s bm sm,
    loop_body condition_buy condition_sell dataframe st i
      = Ok (mkLoop s (indicator_state st ++ [s])
                   (buy st ++ [bm]) (sell st ++ [sm])) ∧
    step_rule (buyCondition i) (sellCondition i) c (last_signal st) s bm sm.
Proof.
  intros Hi Hc. destruct Hclose as [Hcol _].
  unfold loop_body. rewrite (Hbuy i Hi). cbn [mbind result_bind].
  destruct (buyCondition i) eqn:Hb; cbn [andb].
  - case_bool_decide as Hst.
    + unfold getitem, at_pos. rewrite Hcol. simpl. rewrite Hc. simpl.
      eexists _, _, _. split; [reflexivity|]. by constructor.
    + rewrite (Hsell i Hi). cbn [mbind result_bind].
      destruct (sellCondition i) eqn:Hs; cbn [andb].
      * rewrite bool_decide_eq_true_2 by (by destruct (decide (last_signal st = Some "Buy"))).
        unfold getitem, at_pos. rewrite Hcol. simpl. rewrite Hc. simpl.
        eexists _, _, _. split; [reflexivity|].
        apply rule_sell; [tauto | done |].
        by destruct (decide (last_signal st = Some "Buy")).
      * eexists _, _, _. split; [reflexivity|].
        apply rule_hold; [tauto | intros [? _]; done].
  - rewrite (Hsell i Hi). cbn [mbind result_bind].
    destruct (sellCondition i) eqn:Hs; cbn [andb].
    + case_bool_decide as Hst.
      * unfold getitem, at_pos. rewrite Hcol. simpl. rewrite Hc. simpl.
        eexists _, _, _. split; [reflexivity|].
        apply rule_sell; [intros [? _]; done | done | done].
      * eexists _, _, _. split; [reflexivity|].
        apply rule_hold; [intros [? _]; done | tauto].
    + eexists _, _, _. split; [reflexivity|].
      apply rule_hold; intros [? _]; done.
Qed.

Lemma scan_prefix n :
  n ≤ nrows dataframe →
  ∃ st, for_each (loop_body condition_buy condition_sell dataframe)
                 (range n) (mkLoop None [] [] []) = Ok st ∧
        scan_inv buyCondition sellCondition closePrice n st.
Proof.
  induction n as [|n IH]; intros Hn.
  - eexists. split; [reflexivity|].
    repeat split; try done. intros i Hi. lia.
  - destruct IH as (st & Hrun & Hl1 & Hl2 & Hl3 & Hlast & Hrule); [lia|].
    unfold range in *. rewrite seq_S, for_each_snoc, Hrun. simpl.
    destruct (close_at n) as [c Hc]; [lia|].
    destruct (loop_body_ok st n c) as (s & bm & sm & Hbody & Hstep);
      [lia | done |].
    rewrite Hbody. eexists. split; [reflexivity|].
    unfold scan_inv. simpl. rewrite !length_app. simpl.
    repeat split; try lia.
    + rewrite <- Hl1. by rewrite list_lookup_middle.
    + intros i Hi. destruct (decide (i = n)) as [->|Hne].
      * exists c, s, bm, sm.
        rewrite state_before_snoc by lia. rewrite <- Hlast.
        repeat split; try done; by apply list_lookup_middle.
      * destruct (Hrule i) as (c' & s' & bm' & sm' & ? & ? & ? & ? & ?); [lia|].
        exists c', s', bm', sm'.
        rewrite !lookup_app_l by lia.
        rewrite state_before_snoc by lia. by repeat split.
Qed.

Lemma scan_ok :
  ∃ st, scan condition_buy condition_sell dataframe = Ok st ∧
        scan_inv buyCondition sellCondition closePrice
                 (nrows dataframe) st.
Proof. apply scan_prefix. lia. Qed.

End Loop.

(** ** The run as a whole *)

Lemma column_keys_distinct (strategy : string) :
  strategy +:+ "_Indicator" ≠ strategy +:+ "_Buy" ∧
  strategy +:+ "_Indicator" ≠ strategy +:+ "_Sell" ∧
  strategy +:+ "_Buy" ≠ strategy +:+ "_Sell".
Proof.
  repeat split; intros H; apply (inj (String.app strategy)) in H;
    discriminate H.
Qed.

Lemma setitem_array_ok df key c :
  col_len c = nrows df →
  setitem_array df key c
    = Ok (mkDataFrame (nrows df) (<[key := c]> (columns df))).
Proof.
  intros H. unfold setitem_array, ensure_valid_index.
  destruct (decide (nrows df = 0 ∧ 0 < col_len c)) as [[? ?]|_]; [lia|].
  by rewrite decide_True.
Qed.

Lemma with_signals_columns df strategy state buyMarker sellMarker :
  signal_columns (with_signals df strategy state buyMarker sellMarker)
                 strategy state buyMarker sellMarker.
Proof.
  destruct (column_keys_distinct strategy) as (H1 & H2 & H3).
  unfold signal_columns, with_signals. simpl.
  repeat split.
  - rewrite lookup_insert_ne by done. rewrite lookup_insert_ne by done.
    apply lookup_insert_eq.
  - rewrite lookup_insert_ne by done. apply lookup_insert_eq.
  - apply lookup_insert_eq.
Qed.

Lemma generate_of_scan condition_buy condition_sell dataframe strategy st :
  scan condition_buy condition_sell dataframe = Ok st →
  length (indicator_state st) = nrows dataframe →
  length (buy st) = nrows dataframe →
  length (sell st) = nrows dataframe →
  generate_buy_sell_signals condition_buy condition_sell dataframe strategy
    = Ok (last_signal st,
          with_signals dataframe strategy
                       (indicator_state st) (buy st) (sell st)).
Proof.
  intros Hscan H1 H2 H3. unfold generate_buy_sell_signals.
  rewrite Hscan. cbn [mbind result_bind].
  rewrite setitem_array_ok by done. cbn [mbind result_bind].
  rewrite setitem_array_ok by done. cbn [mbind result_bind].
  rewrite setitem_array_ok by done. reflexivity.
Qed.

(** The shape every claim about the state machine starts from: the run
    returns, the three sequences have one entry per row, the scalar it
    returns is the state in force after the last row, and every step
    follows the rule. *)
Lemma generate_run condition_buy condition_sell dataframe strategy
    buyCondition sellCondition closePrice :
  has_close dataframe closePrice →
  decides condition_buy dataframe buyCondition →
  decides condition_sell dataframe sellCondition →
  ∃ state buyMarker sellMarker,
    generate_buy_sell_signals condition_buy condition_sell dataframe strategy
      = Ok (state_before state (nrows dataframe),
            with_signals dataframe strategy state buyMarker sellMarker) ∧
    length state = nrows dataframe ∧
    length buyMarker = nrows dataframe ∧
    length sellMarker = nrows dataframe ∧
    follows_rule buyCondition sellCondition closePrice (nrows dataframe)
                 state buyMarker sellMarker.
Proof.
  intros Hclose Hbuy Hsell.
  destruct (scan_ok _ _ _ _ _ _ Hclose Hbuy Hsell)
    as (st & Hscan & H1 & H2 & H3 & Hlast & Hrule).
  exists (indicator_state st), (buy st), (sell st).
  rewrite <- Hlast. split; [by apply generate_of_scan|]. done.
Qed.

(** *** Consequences of the rule alone *)

Section Rule.
Variables (buyCondition sellCondition : nat → bool).
Variable closePrice : list float.
Variable n : nat.
Variable state : list (option string).
Variables buyMarker sellMarker : list float.
Hypothesis Hrule :
  follows_rule buyCondition sellCondition closePrice n
               state buyMarker sellMarker.

Lemma rule_one_marker i bm sm :
  i < n → buyMarker !! i = Some bm → sellMarker !! i = Some sm →
  missing bm ∨ missing sm.
Proof.
  intros Hi Hb Hs.
  destruct (Hrule i Hi) as (c & s & bm' & sm' & _ & _ & Hb' & Hs' & Hstep).
  rewrite Hb in Hb'. rewrite Hs in Hs'. simplify_eq.
  inversion Hstep; subst; unfold missing; simpl; auto.
Qed.

Lemma rule_state_after i :
  i < n → state !! i = Some (state_before state (S i)).
Proof.
  intros Hi.
  destruct (Hrule i Hi) as (c & s & bm & sm & _ & Hs & _).
  simpl. by rewrite Hs.
Qed.

(** A state that is [None] after a step was [None] before it. *)
Lemma rule_none_back i :
  i < n → state_before state (S i) = None → state_before state i = None.
Proof.
  intros Hi HS.
  destruct (Hrule i Hi) as (c & s & bm & sm & _ & Hs & _ & _ & Hstep).
  simpl in HS. rewrite Hs in HS. simpl in HS. subst s.
  by inversion Hstep.
Qed.

Lemma rule_none_prefix i j :
  i ≤ j → j ≤ n → state_before state j = None →
  state_before state i = None.
Proof.
  intros Hij Hjn. induction Hij as [|j Hij IH]; [done|].
  intros HS. apply IH; [lia|]. apply rule_none_back; [lia | done].
Qed.

(** Leaving [None] is entering [Buy]. *)
Lemma rule_first_is_buy i s :
  i < n → state_before state i = None → state !! i = Some (Some s) →
  s = "Buy".
Proof.
  intros Hi Hprev Hs.
  destruct (Hrule i Hi) as (c & s' & bm & sm & _ & Hs' & _ & _ & Hstep).
  rewrite Hs in Hs'. simplify_eq. rewrite Hprev in Hstep.
  by inversion Hstep.
Qed.

(** A sell marker is written only on the step from [Buy] to [Sell]. *)
Lemma rule_sell_from_buy i sm :
  i < n → sellMarker !! i = Some sm → ¬ missing sm →
  state_before state i = Some "Buy" ∧ state !! i = Some (Some "Sell").
Proof.
  intros Hi Hsm Hmiss.
  destruct (Hrule i Hi) as (c & s & bm & sm' & _ & Hs & _ & Hsm' & Hstep).
  rewrite Hsm in Hsm'. simplify_eq.
  inversion Hstep; subst; try (by destruct Hmiss). done.
Qed.

Lemma rule_sell_entered i :
  i < n → state !! i = Some (Some "Sell") →
  state_before state i = Some "Buy" ∨ state_before state i = Some "Sell".
Proof.
  intros Hi Hs.
  destruct (Hrule i Hi) as (c & s & bm & sm & _ & Hs' & _ & _ & Hstep).
  rewrite Hs in Hs'. simplify_eq.
  inversion Hstep; subst; auto.
Qed.

Lemma rule_buy_after_sell i :
  i < n → state_before state i = Some "Sell" → buyCondition i = true →
  state !! i = Some (Some "Buy").
Proof.
  intros Hi Hprev Hb.
  destruct (Hrule i Hi) as (c & s & bm & sm & _ & Hs & _ & _ & Hstep).
  rewrite Hs. rewrite Hprev in Hstep.
  inversion Hstep as [| Hno | Hno]; subst; try done;
    exfalso; apply Hno; by split.
Qed.

(** Without a buy condition nothing ever happens. *)
Lemma rule_never_buy :
  (∀ i, i < n → buyCondition i = false) →
  ∀ i, i < n →
    state_before state i = None ∧ state !! i = Some None ∧
    buyMarker !! i = Some nan ∧ sellMarker !! i = Some nan.
Proof.
  intros Hnever i. induction i as [|i IH]; intros Hi.
  - destruct (Hrule 0 Hi) as (c & s & bm & sm & _ & Hs & Hb & Hsm & Hstep).
    rewrite (Hnever 0 Hi) in Hstep. simpl in Hstep.
    inversion Hstep; subst; done.
  - destruct IH as (_ & HsI & _); [lia|].
    assert (state_before state (S i) = None) as Hprev
      by (simpl; by rewrite HsI).
    destruct (Hrule (S i) Hi) as (c & s & bm & sm & _ & Hs & Hb & Hsm & Hstep).
    rewrite (Hnever (S i) Hi), Hprev in Hstep.
    inversion Hstep; subst; try done.
Qed.

Lemma rule_tie i c :
  i < n → closePrice !! i = Some c →
  buyCondition i = true → sellCondition i = true →
  (state_before state i ≠ Some "Buy" →
     state !! i = Some (Some "Buy") ∧ buyMarker !! i = Some c ∧
     sellMarker !! i = Some nan) ∧
  (state_before state i = Some "Buy" →
     state !! i = Some (Some "Sell") ∧ buyMarker !! i = Some nan ∧
     sellMarker !! i = Some c).
Proof.
  intros Hi Hc Hb Hs.
  destruct (Hrule i Hi) as (c' & s & bm & sm & Hc' & Hs' & Hb' & Hsm & Hstep).
  rewrite Hc in Hc'. simplify_eq. rewrite Hb, Hs in Hstep.
  split; intros Hprev.
  - inversion Hstep as [| Hno | Hno]; subst; try done.
    exfalso. apply Hno. by split.
  - inversion Hstep as [| | Hno Hno']; subst; try done.
    exfalso. apply Hno'. by split.
Qed.

End Rule.

(** ** The example table *)

Lemma example_has_close : has_close example_frame example_prices.
Proof. split; reflexivity. Qed.

Ltac by_rows :=
  let i := fresh "i" in
  let Hi := fresh "Hi" in
  intros i Hi;
  do 5 (destruct i as [|i]; [reflexivity|]);
  simpl in Hi; lia.

Lemma example_buy_decided : decides (close_below 10) example_frame example_buy.
Proof. by_rows. Qed.

Lemma example_sell_decided : decides (close_above 11) example_frame example_sell.
Proof. by_rows. Qed.

Lemma example_no_buy_decided :
  decides (close_below 5) example_frame example_no_buy.
Proof. by_rows. Qed.

(** ** The signal state machine *)

(** C1. On a table with its closing prices, and for callables that return
    the values of two per-step predicates, the run returns and writes
    three sequences such that every step i, taken from the state in force
    before it (None before step 0, state[i-1] after), follows the
    three-way rule: buy from a state other than Buy, else sell from Buy,
    else nothing; state[i] is the state after the step. When both
    conditions hold, the buy branch is taken unless the state is already
    Buy, and only then the sell branch. *)
Theorem generate_buy_sell_signals_follows_rule
    condition_buy condition_sell dataframe strategy
    buyCondition sellCondition closePrice :
  has_close dataframe closePrice →
  decides condition_buy dataframe buyCondition →
  decides condition_sell dataframe sellCondition →
  ∃ lastState df' state buyMarker sellMarker,
    generate_buy_sell_signals condition_buy condition_sell dataframe strategy
      = Ok (lastState, df') ∧
    signal_columns df' strategy state buyMarker sellMarker ∧
    length state = nrows dataframe ∧
    length buyMarker = nrows dataframe ∧
    length sellMarker = nrows dataframe ∧
    follows_rule buyCondition sellCondition closePrice (nrows dataframe)
                 state buyMarker sellMarker ∧
    (∀ i c, i < nrows dataframe → closePrice !! i = Some c →
       buyCondition i = true → sellCondition i = true →
       (state_before state i ≠ Some "Buy" →
          state !! i = Some (Some "Buy") ∧ buyMarker !! i = Some c ∧
          sellMarker !! i = Some nan) ∧
       (state_before state i = Some "Buy" →
          state !! i = Some (Some "Sell") ∧ buyMarker !! i = Some nan ∧
          sellMarker !! i = Some c)).
Proof.
  intros Hclose Hbuy Hsell.
  destruct (generate_run _ _ _ strategy _ _ _ Hclose Hbuy Hsell)
    as (state & bm & sm & Hrun & H1 & H2 & H3 & Hrule).
  eexists _, _, state, bm, sm. split; [exact Hrun|].
  split; [apply with_signals_columns|].
  repeat (split; [done|]).
  intros i c Hi Hc Hb Hs. by eapply rule_tie.
Qed.

Lemma generate_buy_sell_signals_follows_rule_witness :
  has_close example_frame example_prices ∧
  decides (close_below 10) example_frame example_buy ∧
  decides (close_above 11) example_frame example_sell ∧
  ∃ lastState df' state buyMarker sellMarker,
    generate_buy_sell_signals (close_below 10) (close_above 11)
                              example_frame "Example"
      = Ok (lastState, df') ∧
    signal_columns df' "Example" state buyMarker sellMarker ∧
    length state = 5 ∧ length buyMarker = 5 ∧ length sellMarker = 5 ∧
    follows_rule example_buy example_sell example_prices 5
                 state buyMarker sellMarker ∧
    (∀ i c, i < 5 → example_prices !! i = Some c →
       example_buy i = true → example_sell i = true →
       (state_before state i ≠ Some "Buy" →
          state !! i = Some (Some "Buy") ∧ buyMarker !! i = Some c ∧
          sellMarker !! i = Some nan) ∧
       (state_before state i = Some "Buy" →
          state !! i = Some (Some "Sell") ∧ buyMarker !! i = Some nan ∧
          sellMarker !! i = Some c)).
Proof.
  split; [apply example_has_close|].
  split; [apply example_buy_decided|].
  split; [apply example_sell_decided|].
  apply (generate_buy_sell_signals_follows_rule
           (close_below 10) (close_above 11) example_frame "Example"
           example_buy example_sell example_prices
           example_has_close example_buy_decided example_sell_decided).
Defined.

(** C2. When the buy condition holds at no step, the state is None at
    every step, the scalar returned is None and every marker is missing.
    In general a sell marker is written only on a step taken from Buy,
    the state Sell is only entered from Buy, and from Sell a buy
    condition leads to Buy again. *)
Theorem generate_buy_sell_signals_never_buy
    condition_buy condition_sell dataframe strategy
    buyCondition sellCondition closePrice :
  has_close dataframe closePrice →
  decides condition_buy dataframe buyCondition →
  decides condition_sell dataframe sellCondition →
  ∃ lastState df' state buyMarker sellMarker,
    generate_buy_sell_signals condition_buy condition_sell dataframe strategy
      = Ok (lastState, df') ∧
    signal_columns df' strategy state buyMarker sellMarker ∧
    ((∀ i, i < nrows dataframe → buyCondition i = false) →
       lastState = None ∧
       ∀ i, i < nrows dataframe →
         state !! i = Some None ∧ buyMarker !! i = Some nan ∧
         sellMarker !! i = Some nan) ∧
    (∀ i sm, i < nrows dataframe → sellMarker !! i = Some sm → ¬ missing sm →
       state_before state i = Some "Buy" ∧ state !! i = Some (Some "Sell")) ∧
    (∀ i, i < nrows dataframe → state !! i = Some (Some "Sell") →
       state_before state i = Some "Buy" ∨ state_before state i = Some "Sell") ∧
    (∀ i, i < nrows dataframe → state_before state i = Some "Sell" →
       buyCondition i = true → state !! i = Some (Some "Buy")).
Proof.
  intros Hclose Hbuy Hsell.
  destruct (generate_run _ _ _ strategy _ _ _ Hclose Hbuy Hsell)
    as (state & bm & sm & Hrun & H1 & H2 & H3 & Hrule).
  eexists _, _, state, bm, sm. split; [exact Hrun|].
  split; [apply with_signals_columns|].
  split; [|split; [|split]].
  - intros Hnever.
    pose proof (rule_never_buy _ _ _ _ _ _ _ Hrule Hnever) as Hall.
    split.
    + destruct (nrows dataframe) as [|m] eqn:Hn; [done|].
      destruct (Hall m) as (_ & Hs & _); [lia|]. simpl. by rewrite Hs.
    + intros i Hi. by destruct (Hall i Hi) as (_ & ? & ? & ?).
  - intros i x Hi Hx Hmiss. by eapply rule_sell_from_buy.
  - intros i Hi Hs. by eapply rule_sell_entered.
  - intros i Hi Hprev Hb. by eapply rule_buy_after_sell.
Qed.

Lemma generate_buy_sell_signals_never_buy_witness :
  has_close example_frame example_prices ∧
  decides (close_below 5) example_frame example_no_buy ∧
  decides (close_above 11) example_frame example_sell ∧
  ∃ lastState df' state buyMarker sellMarker,
    generate_buy_sell_signals (close_below 5) (close_above 11)
                              example_frame "Example"
      = Ok (lastState, df') ∧
    signal_columns df' "Example" state buyMarker sellMarker ∧
    ((∀ i, i < 5 → example_no_buy i = false) →
       lastState = None ∧
       ∀ i, i < 5 →
         state !! i = Some None ∧ buyMarker !! i = Some nan ∧
         sellMarker !! i = Some nan) ∧
    (∀ i sm, i < 5 → sellMarker !! i = Some sm → ¬ missing sm →
       state_before state i = Some "Buy" ∧ state !! i = Some (Some "Sell")) ∧
    (∀ i, i < 5 → state !! i = Some (Some "Sell") →
       state_before state i = Some "Buy" ∨ state_before state i = Some "Sell") ∧
    (∀ i, i < 5 → state_before state i = Some "Sell" →
       example_no_buy i = true → state !! i = Some (Some "Buy")).
Proof.
  split; [apply example_has_close|].
  split; [apply example_no_buy_decided|].
  split; [apply example_sell_decided|].
  apply (generate_buy_sell_signals_never_buy
           (close_below 5) (close_above 11) example_frame "Example"
           example_no_buy example_sell example_prices
           example_has_close example_no_buy_decided example_sell_decided).
Defined.

(** C3. At every step at most one of buyMarker[i] and sellMarker[i] is
    non-missing: one of the two is always NaN. *)
Theorem generate_buy_sell_signals_one_marker
    condition_buy condition_sell dataframe strategy
    buyCondition sellCondition closePrice :
  has_close dataframe closePrice →
  decides condition_buy dataframe buyCondition →
  decides condition_sell dataframe sellCondition →
  ∃ lastState df' state buyMarker sellMarker,
    generate_buy_sell_signals condition_buy condition_sell dataframe strategy
      = Ok (lastState, df') ∧
    signal_columns df' strategy state buyMarker sellMarker ∧
    length buyMarker = nrows dataframe ∧
    length sellMarker = nrows dataframe ∧
    ∀ i bm sm, buyMarker !! i = Some bm → sellMarker !! i = Some sm →
      missing bm ∨ missing sm.
Proof.
  intros Hclose Hbuy Hsell.
  destruct (generate_run _ _ _ strategy _ _ _ Hclose Hbuy Hsell)
    as (state & bm & sm & Hrun & H1 & H2 & H3 & Hrule).
  eexists _, _, state, bm, sm. split; [exact Hrun|].
  split; [apply with_signals_columns|].
  repeat (split; [done|]).
  intros i x y Hx Hy.
  apply lookup_lt_Some in Hx as Hi. rewrite H2 in Hi.
  by eapply rule_one_marker.
Qed.

Lemma generate_buy_sell_signals_one_marker_witness :
  has_close example_frame example_prices ∧
  decides (close_below 10) example_frame example_buy ∧
  decides (close_above 11) example_frame example_sell ∧
  ∃ lastState df' state buyMarker sellMarker,
    generate_buy_sell_signals (close_below 10) (close_above 11)
                              example_frame "Example"
      = Ok (lastState, df') ∧
    signal_columns df' "Example" state buyMarker sellMarker ∧
    length buyMarker = 5 ∧ length sellMarker = 5 ∧
    ∀ i bm sm, buyMarker !! i = Some bm → sellMarker !! i = Some sm →
      missing bm ∨ missing sm.
Proof.
  split; [apply example_has_close|].
  split; [apply example_buy_decided|].
  split; [apply example_sell_decided|].
  apply (generate_buy_sell_signals_one_marker
           (close_below 10) (close_above 11) example_frame "Example"
           example_buy example_sell example_prices
           example_has_close example_buy_decided example_sell_decided).
Defined.





(** C5. On the prices 10, 9, 11, 12, 8 with the buy condition
    price[i] < 10 and the sell condition price[i] > 11 the run returns
    Buy; the states are None, Buy, Buy, Sell, Buy; the buy marker is
    present exactly at steps 1 (9) and 4 (8) and the sell marker exactly
    at step 3 (12). *)
Theorem generate_buy_sell_signals_example :
  ∃ df',
    generate_buy_sell_signals (close_below 10) (close_above 11)
                              example_frame "Example"
      = Ok (Some "Buy", df') ∧
    signal_columns df' "Example"
      [None; Some "Buy"; Some "Buy"; Some "Sell"; Some "Buy"]
      [nan; of_Z 9; nan; nan; of_Z 8]
      [nan; nan; nan; of_Z 12; nan] ∧
    isna <$> [nan; of_Z 9; nan; nan; of_Z 8] = [true; false; true; true; false] ∧
    isna <$> [nan; nan; nan; of_Z 12; nan] = [true; true; true; false; true].
Proof.
  exists (with_signals example_frame "Example"
            [None; Some "Buy"; Some "Buy"; Some "Sell"; Some "Buy"]
            [nan; of_Z 9; nan; nan; of_Z 8]
            [nan; nan; nan; of_Z 12; nan]).
  split; [vm_compute; reflexivity|].
  split; [apply with_signals_columns|].
  split; reflexivity.
Qed.

(** C10. The state never returns to None: when state[j] is None, so is
    state[i] for every i <= j. The first state other than None is Buy,
    and on a table with at least one row the scalar returned is
    state[n-1]. *)
Theorem generate_buy_sell_signals_none_is_prefix
    condition_buy condition_sell dataframe strategy
    buyCondition sellCondition closePrice :
  has_close dataframe closePrice →
  decides condition_buy dataframe buyCondition →
  decides condition_sell dataframe sellCondition →
  ∃ lastState df' state buyMarker sellMarker,
    generate_buy_sell_signals condition_buy condition_sell dataframe strategy
      = Ok (lastState, df') ∧
    signal_columns df' strategy state buyMarker sellMarker ∧
    length state = nrows dataframe ∧
    (∀ i j, i ≤ j → state !! j = Some None → state !! i = Some None) ∧
    (∀ i s, state !! i = Some (Some s) →
       (∀ k, k < i → state !! k = Some None) → s = "Buy") ∧
    (0 < nrows dataframe → state !! (nrows dataframe - 1) = Some lastState).
Proof.
  intros Hclose Hbuy Hsell.
  destruct (generate_run _ _ _ strategy _ _ _ Hclose Hbuy Hsell)
    as (state & bm & sm & Hrun & H1 & H2 & H3 & Hrule).
  eexists _, _, state, bm, sm. split; [exact Hrun|].
  split; [apply with_signals_columns|].
  split; [done|]. split; [|split].
  - intros i j Hij Hj.
    apply lookup_lt_Some in Hj as Hjn. rewrite H1 in Hjn.
    rewrite (rule_state_after _ _ _ _ _ _ _ Hrule i) by lia. f_equal.
    apply (rule_none_prefix _ _ _ _ _ _ _ Hrule (S i) (S j)); [lia | lia |].
    simpl. by rewrite Hj.
  - intros i s Hs Hbefore.
    apply lookup_lt_Some in Hs as Hi. rewrite H1 in Hi.
    eapply (rule_first_is_buy _ _ _ _ _ _ _ Hrule i); [done | | done].
    destruct i as [|k]; [done|]. simpl. by rewrite Hbefore by lia.
  - intros Hn. destruct (nrows dataframe) as [|m] eqn:Hm; [lia|].
    replace (S m - 1) with m by lia.
    apply (rule_state_after _ _ _ _ _ _ _ Hrule m). lia.
Qed.

Lemma generate_buy_sell_signals_none_is_prefix_witness :
  has_close example_frame example_prices ∧
  decides (close_below 10) example_frame example_buy ∧
  decides (close_above 11) example_frame example_sell ∧
  ∃ lastState df' state buyMarker sellMarker,
    generate_buy_sell_signals (close_below 10) (close_above 11)
                              example_frame "Example"
      = Ok (lastState, df') ∧
    signal_columns df' "Example" state buyMarker sellMarker ∧
    length state = 5 ∧
    (∀ i j, i ≤ j → state !! j = Some None → state !! i = Some None) ∧
    (∀ i s, state !! i = Some (Some s) →
       (∀ k, k < i → state !! k = Some None) → s = "Buy") ∧
    (0 < 5 → state !! (5 - 1) = Some lastState).
Proof.
  split; [apply example_has_close|].
  split; [apply example_buy_decided|].
  split; [apply example_sell_decided|].
  apply (generate_buy_sell_signals_none_is_prefix
           (close_below 10) (close_above 11) example_frame "Example"
           example_buy example_sell example_prices
           example_has_close example_buy_decided example_sell_decided).
Defined.

(** ** The order of binary64 numbers *)

Ltac compare_cases :=
  repeat match goal with
  | |- context [Pos.compare_cont Eq ?a ?b] =>
      change (Pos.compare_cont Eq a b) with (Pos.compare a b)
  end;
  repeat match goal with
  | |- context [Z.compare ?a ?b] => destruct (Z.compare_spec a b)
  | |- context [Pos.compare ?a ?b] => destruct (Pos.compare_spec a b)
  end;
  simpl; intros; subst; try done; try lia.

Lemma leb_refl x : isna x = false → leb x x = true.
Proof.
  destruct x as [s|s| |s m e]; try destruct s; try done;
    intros _; unfold leb, SFleb, SFcompare; compare_cases.
Qed.

Lemma ltb_leb x y : ltb x y = true → leb x y = true.
Proof.
  unfold ltb, leb, SFltb, SFleb. by destruct (SFcompare x y) as [[]|].
Qed.

Lemma not_ltb_leb x y :
  isna x = false → isna y = false → ltb x y = false → leb y x = true.
Proof.
  destruct x as [s|s| |s m e], y as [s'|s'| |s' m' e'];
    try destruct s; try destruct s'; try done; intros _ _;
    unfold ltb, leb, SFltb, SFleb, SFcompare; compare_cases.
Qed.

Lemma leb_trans x y z : leb x y = true → leb y z = true → leb x z = true.
Proof.
  destruct x as [s|s| |s m e], y as [s'|s'| |s' m' e'],
           z as [s''|s''| |s'' m'' e''];
    try destruct s; try destruct s'; try destruct s''; try done;
    unfold leb, SFleb, SFcompare; compare_cases.
Qed.

Lemma isna_true x : isna x = true → x = nan.
Proof. by destruct x. Qed.

(** ** Reductions that skip NaN *)

Section Reduce.
Variable op : float → float → float.
Variable R : float → float → Prop.
Hypothesis R_refl : ∀ x, isna x = false → R x x.
Hypothesis R_trans : ∀ x y z, R x y → R y z → R x z.
Hypothesis op_choice : ∀ x y, op x y = x ∨ op x y = y.
Hypothesis op_left : ∀ x y, isna x = false → isna y = false → R x (op x y).
Hypothesis op_right : ∀ x y, isna x = false → isna y = false → R y (op x y).

Lemma foldl_bound rest x :
  isna x = false → (∀ y, y ∈ rest → isna y = false) →
  foldl op x rest ∈ x :: rest ∧
  ∀ y, y ∈ x :: rest → R y (foldl op x rest).
Proof.
  revert x. induction rest as [|y rest IH]; intros x Hx Hrest; simpl.
  - split; [apply list_elem_of_here|].
    intros y Hy. apply list_elem_of_singleton in Hy. subst. by apply R_refl.
  - assert (isna y = false) as Hy by (apply Hrest, list_elem_of_here).
    assert (isna (op x y) = false) as Hop
      by (by destruct (op_choice x y) as [-> | ->]).
    destruct (IH (op x y)) as [Hin Hle]; [done | |].
    { intros z Hz. by apply Hrest, list_elem_of_further. }
    assert (R (op x y) (foldl op (op x y) rest)) as Htop
      by apply Hle, list_elem_of_here.
    split.
    + apply elem_of_cons in Hin as [Heq|Hin].
      * rewrite Heq. destruct (op_choice x y) as [-> | ->].
        -- apply list_elem_of_here.
        -- apply list_elem_of_further, list_elem_of_here.
      * by do 2 apply list_elem_of_further.
    + intros z Hz.
      apply elem_of_cons in Hz as [->|Hz].
      * apply (R_trans _ (op x y)); [by apply op_left | done].
      * apply elem_of_cons in Hz as [->|Hz].
        -- apply (R_trans _ (op x y)); [by apply op_right | done].
        -- by apply Hle, list_elem_of_further.
Qed.

Lemma reduce_skipna_bound s :
  s ≠ [] →
  reduce_skipna op s ∈ s ∧
  ∀ x, x ∈ s → isna x = false → R x (reduce_skipna op s).
Proof.
  intros Hne. unfold reduce_skipna.
  destruct (filter (λ x, isna x = false) s) as [|x rest] eqn:Hf.
  - assert (∀ y, y ∈ s → isna y = false → False) as Hnone.
    { intros y Hy Hnum.
      assert (y ∈ filter (λ x, isna x = false) s) as Hin
        by (by apply list_elem_of_filter).
      rewrite Hf in Hin. by apply not_elem_of_nil in Hin. }
    split.
    + destruct s as [|y s]; [done|].
      destruct (isna y) eqn:Hy.
      * apply isna_true in Hy. subst. apply list_elem_of_here.
      * destruct (Hnone y); [apply list_elem_of_here | done].
    + intros x Hx Hnum. destruct (Hnone x Hx Hnum).
  - assert (∀ y, y ∈ x :: rest → isna y = false ∧ y ∈ s) as Hall.
    { intros y Hy. rewrite <- Hf in Hy. by apply list_elem_of_filter in Hy. }
    destruct (foldl_bound rest x) as [Hin Hle].
    { apply Hall, list_elem_of_here. }
    { intros y Hy. by apply Hall, list_elem_of_further. }
    split; [by apply Hall|].
    intros y Hy Hnum. apply Hle. rewrite <- Hf.
    by apply list_elem_of_filter.
Qed.

End Reduce.

Lemma series_max_is_max s : s ≠ [] → is_max (series_max s) s.
Proof.
  intros Hne. unfold is_max, series_max.
  apply (reduce_skipna_bound fmax (λ x h, leb x h = true)); try done.
  - apply leb_refl.
  - apply leb_trans.
  - intros x y. unfold fmax. destruct (ltb x y); auto.
  - intros x y Hx Hy. unfold fmax. destruct (ltb x y) eqn:Hlt.
    + by apply ltb_leb.
    + by apply leb_refl.
  - intros x y Hx Hy. unfold fmax. destruct (ltb x y) eqn:Hlt.
    + by apply leb_refl.
    + by apply not_ltb_leb.
Qed.

Lemma series_min_is_min s : s ≠ [] → is_min (series_min s) s.
Proof.
  intros Hne. unfold is_min, series_min.
  apply (reduce_skipna_bound fmin (λ x l, leb l x = true)); try done.
  - apply leb_refl.
  - intros x y z Hxy Hyz. by eapply leb_trans.
  - intros x y. unfold fmin. destruct (ltb y x); auto.
  - intros x y Hx Hy. unfold fmin. destruct (ltb y x) eqn:Hlt.
    + by apply ltb_leb.
    + by apply leb_refl.
  - intros x y Hx Hy. unfold fmin. destruct (ltb y x) eqn:Hlt.
    + by apply leb_refl.
    + by apply not_ltb_leb.
Qed.

(** ** The KPI block *)

Lemma iloc_last s :
  s ≠ [] → ∃ x, s !! (length s - 1) = Some x ∧ iloc s (-1) = Ok x.
Proof.
  intros Hne.
  assert (0 < length s) as Hlen by (destruct s; [done | simpl; lia]).
  destruct (lookup_lt_is_Some_2 s (length s - 1)) as [x Hx]; [lia|].
  exists x. split; [done|]. unfold iloc.
  change (-1 <? 0)%Z with true. cbv iota.
  destruct (Z.leb_spec 0 (-1 + Z.of_nat (length s))); [|lia].
  destruct (Z.ltb_spec (-1 + Z.of_nat (length s)) (Z.of_nat (length s)));
    [|lia].
  cbn [andb].
  replace (Z.to_nat (-1 + Z.of_nat (length s))) with (length s - 1) by lia.
  by rewrite Hx.
Qed.

Lemma iloc_first s x : s !! 0 = Some x → iloc s 0 = Ok x.
Proof.
  intros Hx. apply lookup_lt_Some in Hx as Hlen. unfold iloc.
  change (0 <? 0)%Z with false. cbv iota.
  destruct (Z.ltb_spec 0 (Z.of_nat (length s))); [|lia].
  change (0 <=? 0)%Z with true. cbn [andb].
  change (Z.to_nat 0) with 0. by rewrite Hx.
Qed.

(** The block on any series with a first entry. *)
Lemma index_kpi_run price p0 :
  price !! 0 = Some p0 →
  ∃ pn,
    price !! (length price - 1) = Some pn ∧
    index_kpi price
      = Ok (mkKpi pn (series_max price) (series_min price)
                  (percent_change pn p0) (length price)).
Proof.
  intros H0.
  assert (price ≠ []) as Hne by (by destruct price).
  destruct (iloc_last price Hne) as (pn & Hn & Hlast).
  exists pn. split; [done|]. unfold index_kpi.
  rewrite Hlast. cbn [mbind result_bind].
  by rewrite (iloc_first _ _ H0).
Qed.

Lemma percent_change_zero_open pn p0 :
  is_zero p0 = true →
  is_inf (percent_change pn p0) = true ∨ isna (percent_change pn p0) = true.
Proof.
  destruct p0 as [s0| | |]; try done. intros _.
  unfold percent_change.
  destruct pn as [s|s| |s m e]; [right| left| right| left];
    try destruct s; destruct s0; reflexivity.
Qed.

(** C6. On a series with a first entry other than zero the block returns
    lastPrice = price[n-1], high = the maximum and low = the minimum of
    the series, changePercent = (price[n-1] / price[0] - 1) * 100 in
    binary64 arithmetic, and pointCount = n. *)
Theorem index_kpi_summary (price : list float) (p0 : float) :
  price !! 0 = Some p0 → is_zero p0 = false →
  ∃ k pn,
    index_kpi price = Ok k ∧
    price !! (length price - 1) = Some pn ∧
    last_price k = pn ∧
    is_max (high k) price ∧
    is_min (low k) price ∧
    change_pct k = mul (sub (div pn p0) (of_Z 1)) (of_Z 100) ∧
    n_points k = length price.
Proof.
  intros H0 _.
  assert (price ≠ []) as Hne by (by destruct price).
  destruct (index_kpi_run price p0 H0) as (pn & Hn & Hrun).
  eexists _, pn. split; [exact Hrun|]. simpl.
  repeat split; try done.
  - by apply series_max_is_max.
  - by apply series_max_is_max.
  - by apply series_min_is_min.
  - by apply series_min_is_min.
Qed.

Lemma index_kpi_summary_witness :
  example_prices !! 0 = Some (of_Z 10) ∧
  is_zero (of_Z 10) = false ∧
  ∃ k pn,
    index_kpi example_prices = Ok k ∧
    example_prices !! (length example_prices - 1) = Some pn ∧
    last_price k = pn ∧
    is_max (high k) example_prices ∧
    is_min (low k) example_prices ∧
    change_pct k = mul (sub (div pn (of_Z 10)) (of_Z 1)) (of_Z 100) ∧
    n_points k = length example_prices.
Proof.
  split; [reflexivity|]. split; [reflexivity|].
  apply (index_kpi_summary example_prices (of_Z 10) eq_refl eq_refl).
Defined.

(** The block on the example: last 8, high 12, low 8, and a change of
    -19.999999999999996 %, which is what binary64 makes of
    (8 / 10 - 1) * 100. *)
Example index_kpi_example :
  index_kpi example_prices
    = Ok (mkKpi (of_Z 8) (of_Z 12) (of_Z 8)
                (S754_finite true 5629499534213119 (-48)) 5).
Proof. vm_compute. reflexivity. Qed.

(** C7, as the code has it. A zero opening price raises nothing: the
    block returns, and changePercent is the binary64 value of
    (price[n-1] / 0 - 1) * 100, an infinity or NaN. *)
Theorem index_kpi_zero_open (price : list float) (p0 : float) :
  price !! 0 = Some p0 → is_zero p0 = true →
  ∃ k pn,
    index_kpi price = Ok k ∧
    price !! (length price - 1) = Some pn ∧
    change_pct k = mul (sub (div pn p0) (of_Z 1)) (of_Z 100) ∧
    (is_inf (change_pct k) = true ∨ isna (change_pct k) = true).
Proof.
  intros H0 Hz.
  destruct (index_kpi_run price p0 H0) as (pn & Hn & Hrun).
  eexists _, pn. split; [exact Hrun|]. simpl.
  repeat split; try done. by apply percent_change_zero_open.
Qed.

Lemma index_kpi_zero_open_witness :
  [of_Z 0; of_Z 1] !! 0 = Some (of_Z 0) ∧
  is_zero (of_Z 0) = true ∧
  ∃ k pn,
    index_kpi [of_Z 0; of_Z 1] = Ok k ∧
    [of_Z 0; of_Z 1] !! (length [of_Z 0; of_Z 1] - 1) = Some pn ∧
    change_pct k = mul (sub (div pn (of_Z 0)) (of_Z 1)) (of_Z 100) ∧
    (is_inf (change_pct k) = true ∨ isna (change_pct k) = true).
Proof.
  split; [reflexivity|]. split; [reflexivity|].
  apply (index_kpi_zero_open [of_Z 0; of_Z 1] (of_Z 0) eq_refl eq_refl).
Defined.

(** C7, as stated, fails: on the series 0, 1 the opening price is zero,
    yet the block raises nothing and returns changePercent = +infinity. *)
Lemma zero_open_price_returns_infinity :
  [of_Z 0; of_Z 1] !! 0 = Some (S754_zero false) ∧
  index_kpi [of_Z 0; of_Z 1]
    = Ok (mkKpi (of_Z 1) (of_Z 1) (of_Z 0) (S754_infinity false) 2) ∧
  ¬ raises (index_kpi [of_Z 0; of_Z 1]).
Proof.
  split; [reflexivity|]. split; [vm_compute; reflexivity|].
  intros [e He]. vm_compute in He. discriminate He.
Qed.

(** ** Frames under column assignment *)

Ltac keys_differ :=
  let H := fresh "H" in intros H; vm_compute in H; discriminate H.

Lemma col_len_reindex_missing n c : col_len (reindex_missing n c) = n.
Proof. destruct c; simpl; apply length_replicate. Qed.

Lemma length_align n s : length (align n s) = n.
Proof.
  unfold align. rewrite length_app, length_take, length_replicate. lia.
Qed.

Lemma state_before_replicate n : state_before (replicate n None) n = None.
Proof.
  destruct n as [|m]; [done|].
  cbn [state_before]. by rewrite lookup_replicate_2 by lia.
Qed.

Lemma ensure_valid_index_wf df len :
  wf_frame df → wf_frame (ensure_valid_index df len).
Proof.
  intros Hwf. unfold ensure_valid_index.
  destruct (decide (nrows df = 0 ∧ 0 < len)) as [_|_]; [|done].
  intros k c. simpl. rewrite lookup_fmap.
  destruct (columns df !! k) as [c0|]; [|done].
  intros [= <-]. apply col_len_reindex_missing.
Qed.

Lemma ensure_valid_index_float df len k :
  float_column df k → float_column (ensure_valid_index df len) k.
Proof.
  intros [l Hl]. unfold ensure_valid_index, float_column.
  destruct (decide (nrows df = 0 ∧ 0 < len)) as [_|_]; [|by exists l].
  simpl. rewrite lookup_fmap, Hl. simpl. by eexists.
Qed.

Lemma ensure_valid_index_records df len strategy lastState :
  records df strategy lastState →
  records (ensure_valid_index df len) strategy lastState.
Proof.
  intros (state & Hcol & Hlen & Hlast). unfold ensure_valid_index.
  destruct (decide (nrows df = 0 ∧ 0 < len)) as [[Hn _]|_];
    [|by exists state].
  rewrite Hn in Hlen, Hlast. apply nil_length_inv in Hlen. subst state.
  exists (replicate len None). simpl. rewrite lookup_fmap, Hcol. simpl.
  split; [done|]. split; [apply length_replicate|].
  rewrite state_before_replicate. by rewrite <- Hlast.
Qed.

Lemma setitem_series_wf df key s :
  wf_frame df → wf_frame (setitem_series df key s).
Proof.
  intros Hwf k c. unfold setitem_series. simpl.
  destruct (decide (key = k)) as [->|Hne].
  - rewrite lookup_insert_eq. intros [= <-]. simpl. apply length_align.
  - rewrite lookup_insert_ne by done.
    apply (ensure_valid_index_wf df (length s) Hwf).
Qed.

Lemma setitem_series_float df key s : float_column (setitem_series df key s) key.
Proof.
  unfold float_column, setitem_series. simpl.
  rewrite lookup_insert_eq. by eexists.
Qed.

Lemma setitem_series_float_keep df key s k :
  float_column df k → float_column (setitem_series df key s) k.
Proof.
  intros Hk. destruct (decide (key = k)) as [->|Hne].
  - apply setitem_series_float.
  - apply (ensure_valid_index_float df (length s)) in Hk as [l Hl].
    exists l. unfold setitem_series. simpl. by rewrite lookup_insert_ne.
Qed.

Lemma setitem_series_good df key s :
  good_frame df → good_frame (setitem_series df key s).
Proof.
  intros [Hwf Hclose]. split.
  - by apply setitem_series_wf.
  - by apply setitem_series_float_keep.
Qed.

Lemma setitem_series_records df key s strategy lastState :
  key ≠ strategy +:+ "_Indicator" →
  records df strategy lastState →
  records (setitem_series df key s) strategy lastState.
Proof.
  intros Hne Hrec.
  apply (ensure_valid_index_records df (length s)) in Hrec
    as (state & Hcol & Hlen & Hlast).
  exists state. unfold setitem_series. simpl.
  by rewrite lookup_insert_ne.
Qed.

Lemma with_signals_wf df strategy state buyMarker sellMarker :
  wf_frame df →
  length state = nrows df → length buyMarker = nrows df →
  length sellMarker = nrows df →
  wf_frame (with_signals df strategy state buyMarker sellMarker).
Proof.
  intros Hwf H1 H2 H3 k c. unfold with_signals. simpl.
  rewrite !lookup_insert. repeat case_decide; try (by intros [= <-]).
  apply Hwf.
Qed.

Lemma with_signals_float_keep df strategy state buyMarker sellMarker k :
  k ≠ strategy +:+ "_Indicator" →
  float_column df k →
  float_column (with_signals df strategy state buyMarker sellMarker) k.
Proof.
  intros Hne [l Hl]. unfold float_column, with_signals. simpl.
  destruct (decide (strategy +:+ "_Sell" = k)) as [<-|H3].
  { exists sellMarker. by rewrite lookup_insert_eq. }
  rewrite lookup_insert_ne by done.
  destruct (decide (strategy +:+ "_Buy" = k)) as [<-|H2].
  { exists buyMarker. by rewrite lookup_insert_eq. }
  rewrite lookup_insert_ne by done.
  rewrite lookup_insert_ne by done. by exists l.
Qed.

Lemma with_signals_records df strategy state buyMarker sellMarker :
  length state = nrows df →
  records (with_signals df strategy state buyMarker sellMarker) strategy
          (state_before state (nrows df)).
Proof.
  intros Hlen. exists state.
  by destruct (with_signals_columns df strategy state buyMarker sellMarker)
    as (-> & _ & _).
Qed.

Lemma with_signals_records_keep df strategy state buyMarker sellMarker
    other lastState :
  strategy +:+ "_Indicator" ≠ other +:+ "_Indicator" →
  strategy +:+ "_Buy" ≠ other +:+ "_Indicator" →
  strategy +:+ "_Sell" ≠ other +:+ "_Indicator" →
  records df other lastState →
  records (with_signals df strategy state buyMarker sellMarker) other
          lastState.
Proof.
  intros H1 H2 H3 (st & Hcol & Hlen & Hlast). exists st.
  unfold with_signals. simpl. by rewrite !lookup_insert_ne.
Qed.

Lemma values_at_ok df k i :
  wf_frame df → float_column df k → i < nrows df →
  ∃ v, values_at df k i = Ok v.
Proof.
  intros Hwf [l Hl] Hi. unfold values_at, getitem. rewrite Hl. simpl.
  specialize (Hwf k _ Hl). simpl in Hwf.
  destruct (lookup_lt_is_Some_2 l i) as [v Hv]; [lia|].
  unfold at_pos. simpl. rewrite Hv. by exists v.
Qed.

Lemma compare_total_on df k1 k2 (f : float → float → bool) :
  wf_frame df → float_column df k1 → float_column df k2 →
  total_on (λ x d, a ← values_at d k1 x; b ← values_at d k2 x; Ok (f a b)) df.
Proof.
  intros Hwf H1 H2 i Hi.
  destruct (values_at_ok df k1 i) as [a ->]; [done..|].
  destruct (values_at_ok df k2 i) as [b ->]; [done..|].
  by eexists.
Qed.

Lemma threshold_total_on df k (f : float → bool) :
  wf_frame df → float_column df k →
  total_on (λ x d, a ← values_at d k x; Ok (f a)) df.
Proof.
  intros Hwf H1 i Hi.
  destruct (values_at_ok df k i) as [a ->]; [done..|]. by eexists.
Qed.

Lemma decides_values_of c df : total_on c df → decides c df (values_of c df).
Proof.
  intros Htot i Hi. unfold values_of. by destruct (Htot i Hi) as [b ->].
Qed.

Lemma has_close_of_good df : good_frame df → ∃ closePrice, has_close df closePrice.
Proof.
  intros [Hwf [l Hl]]. exists l. split; [done|]. apply (Hwf _ _ Hl).
Qed.

(** The states a run records are None, Buy and Sell. *)
Lemma rule_state_values buyCondition sellCondition closePrice n
    state buyMarker sellMarker :
  follows_rule buyCondition sellCondition closePrice n
               state buyMarker sellMarker →
  ∀ i, i ≤ n →
    state_before state i = None ∨ state_before state i = Some "Buy" ∨
    state_before state i = Some "Sell".
Proof.
  intros Hrule i. induction i as [|i IH]; intros Hi; [by left|].
  destruct (Hrule i) as (c & s & bm & sm & _ & Hs & _ & _ & Hstep); [lia|].
  cbn [state_before]. rewrite Hs. simpl.
  inversion Hstep; subst; auto. apply IH. lia.
Qed.

Lemma py_or_signal_text lastState :
  lastState = None ∨ lastState = Some "Buy" ∨ lastState = Some "Sell" →
  py_or lastState "None" = signal_text lastState.
Proof. by intros [-> | [-> | ->]]. Qed.

(** A run on a frame the pipelines have prepared. *)
Lemma generate_good condition_buy condition_sell df strategy :
  good_frame df → total_on condition_buy df → total_on condition_sell df →
  ∃ state buyMarker sellMarker,
    generate_buy_sell_signals condition_buy condition_sell df strategy
      = Ok (state_before state (nrows df),
            with_signals df strategy state buyMarker sellMarker) ∧
    length state = nrows df ∧ length buyMarker = nrows df ∧
    length sellMarker = nrows df ∧
    py_or (state_before state (nrows df)) "None"
      = signal_text (state_before state (nrows df)).
Proof.
  intros Hgood Hbuy Hsell.
  destruct (has_close_of_good df Hgood) as [closePrice Hclose].
  destruct (generate_run _ _ _ strategy _ _ _ Hclose
              (decides_values_of _ _ Hbuy) (decides_values_of _ _ Hsell))
    as (state & bm & sm & Hrun & H1 & H2 & H3 & Hrule).
  exists state, bm, sm. repeat (split; [done|]).
  apply py_or_signal_text. by eapply rule_state_values.
Qed.

(** ** The three pipelines *)

Section Pipelines.
Context `{ta : TaLibrary}.

Ltac run_generate :=
  match goal with
  | |- context [generate_buy_sell_signals ?cb ?cs ?d ?s] =>
      let Hrun := fresh "Hrun" in
      destruct (generate_good cb cs d s)
        as (state & bm & sm & Hrun & Hl1 & Hl2 & Hl3 & Htext);
      [ | | | rewrite Hrun; cbn [mbind result_bind fst snd]; rewrite Htext ]
  end.

Lemma get_macd_run company p df :
  prices company = Some p → technical_indicators company = Some df →
  good_frame df →
  ∃ df' lastState,
    get_macd company = Ok (store_frame company df', signal_text lastState) ∧
    good_frame df' ∧ records df' "MACD" lastState.
Proof.
  intros Hp Hdf Hgood. unfold get_macd, the_prices, the_frame.
  rewrite Hp, Hdf. cbn [mbind result_bind]. cbv zeta.
  set (d := setitem_series (setitem_series (setitem_series df _ _) _ _) _ _).
  assert (good_frame d) as Hd by (by do 3 apply setitem_series_good).
  assert (float_column d "MACD") as Hmacd
    by (do 2 apply setitem_series_float_keep; apply setitem_series_float).
  assert (float_column d "MACD_Signal") as Hsignal
    by apply setitem_series_float.
  run_generate.
  - done.
  - by apply (compare_total_on d "MACD" "MACD_Signal" ltb); [apply Hd|..].
  - by apply (compare_total_on d "MACD" "MACD_Signal" (λ a b, ltb b a));
      [apply Hd|..].
  - eexists _, _. split; [reflexivity|]. split; [split|].
    + apply with_signals_wf; [apply Hd | done..].
    + apply with_signals_float_keep; [keys_differ | apply Hd].
    + by apply with_signals_records.
Qed.

Lemma get_rsi_run company p df rsi_time_period low_rsi high_rsi :
  prices company = Some p → technical_indicators company = Some df →
  good_frame df →
  ∃ df' lastState,
    get_rsi company rsi_time_period low_rsi high_rsi
      = Ok (store_frame company df', signal_text lastState) ∧
    good_frame df' ∧ records df' "RSI" lastState ∧
    ∀ l, records df "MACD" l → records df' "MACD" l.
Proof.
  intros Hp Hdf Hgood. unfold get_rsi, the_prices, the_frame.
  rewrite Hp, Hdf. cbn [mbind result_bind]. cbv zeta.
  set (d := setitem_series df _ _).
  assert (good_frame d) as Hd by (by apply setitem_series_good).
  assert (float_column d "RSI") as Hrsi by apply setitem_series_float.
  run_generate.
  - done.
  - by apply (threshold_total_on d "RSI" (λ a, ltb a (of_Z low_rsi)));
      [apply Hd|].
  - by apply (threshold_total_on d "RSI" (λ a, ltb (of_Z high_rsi) a));
      [apply Hd|].
  - eexists _, _. split; [reflexivity|]. split; [split|split].
    + apply with_signals_wf; [apply Hd | done..].
    + apply with_signals_float_keep; [keys_differ | apply Hd].
    + by apply with_signals_records.
    + intros l Hl.
      apply with_signals_records_keep; [keys_differ..|].
      apply setitem_series_records; [keys_differ | done].
Qed.

Lemma get_bollinger_bands_run company p df window :
  prices company = Some p → technical_indicators company = Some df →
  good_frame df →
  ∃ df' lastState,
    get_bollinger_bands company window
      = Ok (store_frame company df', signal_text lastState) ∧
    good_frame df' ∧ records df' "Bollinger_Bands" lastState ∧
    (∀ l, records df "MACD" l → records df' "MACD" l) ∧
    (∀ l, records df "RSI" l → records df' "RSI" l).
Proof.
  intros Hp Hdf Hgood. unfold get_bollinger_bands, the_prices, the_frame.
  rewrite Hp, Hdf. cbn [mbind result_bind]. cbv zeta.
  set (d := setitem_series (setitem_series (setitem_series df _ _) _ _) _ _).
  assert (good_frame d) as Hd by (by do 3 apply setitem_series_good).
  assert (float_column d "Bollinger_Bands_Upper") as Hup
    by (apply setitem_series_float_keep; apply setitem_series_float).
  assert (float_column d "Bollinger_Bands_Lower") as Hlow
    by apply setitem_series_float.
  run_generate.
  - done.
  - apply (compare_total_on d "Close" "Bollinger_Bands_Lower" ltb);
      [apply Hd | apply Hd | done].
  - apply (compare_total_on d "Close" "Bollinger_Bands_Upper"
             (λ a b, ltb b a)); [apply Hd | apply Hd | done].
  - eexists _, _. split; [reflexivity|]. split; [split|split; [|split]].
    + apply with_signals_wf; [apply Hd | done..].
    + apply with_signals_float_keep; [keys_differ | apply Hd].
    + by apply with_signals_records.
    + intros l Hl.
      apply with_signals_records_keep; [keys_differ..|].
      do 3 (apply setitem_series_records; [keys_differ|]). done.
    + intros l Hl.
      apply with_signals_records_keep; [keys_differ..|].
      do 3 (apply setitem_series_records; [keys_differ|]). done.
Qed.

Lemma close_frame_good p : good_frame (setitem_series empty_frame "Close" p).
Proof.
  split.
  - apply setitem_series_wf. intros k c Hk.
    change (columns empty_frame) with (∅ : gmap string column) in Hk.
    by rewrite lookup_empty in Hk.
  - apply setitem_series_float.
Qed.

(** The orchestrator returns whenever the company has its prices. *)
Lemma set_technical_indicators_run company p :
  prices company = Some p →
  ∃ df macd rsi boll,
    set_technical_indicators company
      = Ok (mkCompany (symbol company) (Some df) (prices company),
            {[ "MACD" := signal_text macd; "RSI" := signal_text rsi;
               "BOLL" := signal_text boll ]}) ∧
    good_frame df ∧
    records df "MACD" macd ∧ records df "RSI" rsi ∧
    records df "Bollinger_Bands" boll.
Proof.
  intros Hp. unfold set_technical_indicators, the_prices.
  rewrite Hp. cbn [mbind result_bind]. cbv zeta.
  set (c0 := store_frame company _).
  destruct (get_macd_run c0 p _ Hp eq_refl (close_frame_good p))
    as (d1 & macd & -> & Hg1 & Hm1).
  cbn [mbind result_bind fst snd].
  destruct (get_rsi_run (store_frame c0 d1) p d1 20 40 70 Hp eq_refl Hg1)
    as (d2 & rsi & -> & Hg2 & Hr2 & Hm2).
  cbn [mbind result_bind fst snd].
  destruct (get_bollinger_bands_run (store_frame (store_frame c0 d1) d2)
              p d2 20 Hp eq_refl Hg2)
    as (d3 & boll & -> & Hg3 & Hb3 & Hm3 & Hr3).
  cbn [mbind result_bind fst snd].
  exists d3, macd, rsi, boll. split; [|auto].
  unfold c0, store_frame. cbn [symbol prices]. by rewrite Hp.
Qed.

End Pipelines.

(** ** The orchestrator *)


Lemma set_technical_indicators_reads `{ta : TaLibrary} (a b : Company) :
  symbol a = symbol b → prices a = prices b →
  set_technical_indicators a = set_technical_indicators b.
Proof.
  destruct a as [sa fa pa], b as [sb fb pb]. simpl.
  intros -> ->. reflexivity.
Qed.

Lemma example_result_run :
  @set_technical_indicators echo_ta example_company
    = Ok (example_result.1, example_result.2).
Proof. vm_compute. reflexivity. Qed.



(** On the example the stand-in library makes RSI buy at once and leaves
    the two other strategies without a position. *)
Example example_result_signals :
  example_result.2 !! "MACD" = Some "None" ∧
  example_result.2 !! "RSI" = Some "Buy" ∧
  example_result.2 !! "BOLL" = Some "None".
Proof. repeat split; vm_compute; reflexivity. Qed.

(** C9. A second run of the orchestrator on the company the first run
    has left behind returns the same company, table and map of last
    signals: the run reads only the symbol and the prices, leaves both as
    they were, and starts from a fresh frame. *)
Theorem set_technical_indicators_idempotent `{ta : TaLibrary}
    (company c1 : Company) (lastSignals : gmap string string) :
  set_technical_indicators company = Ok (c1, lastSignals) →
  set_technical_indicators c1 = Ok (c1, lastSignals) ∧
  prices c1 = prices company ∧
  ∀ other, symbol other = symbol company → prices other = prices company →
    set_technical_indicators other = Ok (c1, lastSignals).
Proof.
  intros Hrun.
  destruct (prices company) as [p|] eqn:Hp.
  - destruct (set_technical_indicators_run company p Hp)
      as (df & macd & rsi & boll & Hrun' & _).
    rewrite Hrun' in Hrun. injection Hrun as <- <-.
    split; [|split; [done|]].
    + etrans; [|exact Hrun'].
      apply set_technical_indicators_reads; [done | by rewrite Hp].
    + intros other Hs Ho. etrans; [|exact Hrun'].
      apply set_technical_indicators_reads; [done | by rewrite Hp].
  - unfold set_technical_indicators, the_prices in Hrun.
    rewrite Hp in Hrun. discriminate Hrun.
Qed.

Lemma set_technical_indicators_idempotent_witness :
  @set_technical_indicators echo_ta example_company
    = Ok (example_result.1, example_result.2) ∧
  @set_technical_indicators echo_ta example_result.1
    = Ok (example_result.1, example_result.2) ∧
  prices example_result.1 = prices example_company ∧
  ∀ other, symbol other = symbol example_company →
    prices other = prices example_company →
    @set_technical_indicators echo_ta other
      = Ok (example_result.1, example_result.2).
Proof.
  split; [apply example_result_run|].
  apply (@set_technical_indicators_idempotent echo_ta
           example_company example_result.1 example_result.2
           example_result_run).
Defined.

(** * Further properties of the code *)

(** ** Exceptions in the scan *)

Lemma for_each_app {S : Type} (body : S → nat → result S) l1 l2 st :
  for_each body (l1 ++ l2) st = (for_each body l1 st ≫= for_each body l2).
Proof.
  revert st. induction l1 as [|j l1 IH]; intros st; [done|].
  simpl. unfold mbind at 1 3, result_bind. destruct (body st j); [apply IH | done].
Qed.

Lemma for_each_ext {S : Type} (body body' : S → nat → result S) l st :
  (∀ i s, i ∈ l → body s i = body' s i) →
  for_each body l st = for_each body' l st.
Proof.
  revert st. induction l as [|j l IH]; intros st Hext; [done|].
  simpl. rewrite (Hext j st) by apply list_elem_of_here.
  destruct (body' st j); [|done]. simpl.
  apply IH. intros i s Hi. by apply Hext, list_elem_of_further.
Qed.

Lemma range_split k n : k < n → range n = range k ++ k :: seq (S k) (n - S k).
Proof.
  intros Hk. unfold range.
  replace n with (k + S (n - S k)) at 1 by lia.
  by rewrite seq_app.
Qed.

(** The least row at which a predicate holds. *)
Lemma first_true (p : nat → bool) n :
  (∀ i, i < n → p i = false) ∨
  (∃ k, k < n ∧ p k = true ∧ ∀ i, i < k → p i = false).
Proof.
  induction n as [|n [IH|(k & Hk & Hp & Hmin)]].
  - left. intros i Hi. lia.
  - destruct (p n) eqn:Hn.
    + right. exists n. repeat split; [lia | done | done].
    + left. intros i Hi. destruct (decide (i = n)) as [->|]; [done|].
      apply IH. lia.
  - right. exists k. repeat split; [lia | done | done].
Qed.

(** While the buy condition is false and the state is None, the scan
    never reads the Close column. *)
Lemma scan_quiet condition_buy condition_sell df buyCondition sellCondition m :
  decides condition_buy df buyCondition →
  decides condition_sell df sellCondition →
  m ≤ nrows df → (∀ i, i < m → buyCondition i = false) →
  for_each (loop_body condition_buy condition_sell df) (range m)
           (mkLoop None [] [] [])
    = Ok (mkLoop None (replicate m None) (replicate m nan) (replicate m nan)).
Proof.
  intros Hbuy Hsell. induction m as [|m IH]; intros Hm Hnever; [done|].
  unfold range in *. rewrite seq_S, for_each_snoc, IH; [|lia|].
  - simpl. unfold loop_body. rewrite (Hbuy m), (Hnever m) by lia.
    cbn [mbind result_bind andb]. rewrite (Hsell m) by lia.
    cbn [mbind result_bind last_signal].
    rewrite bool_decide_eq_false_2 by done. rewrite andb_false_r.
    cbn [mbind result_bind last_signal indicator_state buy sell].
    rewrite <- !replicate_S_end. reflexivity.
  - intros i Hi. apply Hnever. lia.
Qed.

Lemma generate_of_scan_raise condition_buy condition_sell df strategy e :
  scan condition_buy condition_sell df = Raise e →
  generate_buy_sell_signals condition_buy condition_sell df strategy = Raise e.
Proof. intros H. unfold generate_buy_sell_signals. by rewrite H. Qed.

Lemma scan_raise_at condition_buy condition_sell df k st e :
  k < nrows df →
  for_each (loop_body condition_buy condition_sell df) (range k)
           (mkLoop None [] [] []) = Ok st →
  loop_body condition_buy condition_sell df st k = Raise e →
  scan condition_buy condition_sell df = Raise e.
Proof.
  intros Hk Hpre Hbody. unfold scan.
  rewrite (range_split k (nrows df) Hk), for_each_app, Hpre.
  simpl. by rewrite Hbody.
Qed.

(** X1. On a table without a Close column (and callables that return on
    every row) the run raises KeyError "Close" as soon as the buy condition
    holds at some row; when it holds at no row the run returns None, with
    the state None and both markers missing on every row. *)
Theorem generate_buy_sell_signals_missing_close
    condition_buy condition_sell dataframe strategy
    buyCondition sellCondition :
  columns dataframe !! "Close" = None →
  decides condition_buy dataframe buyCondition →
  decides condition_sell dataframe sellCondition →
  ((∃ i, i < nrows dataframe ∧ buyCondition i = true) →
     generate_buy_sell_signals condition_buy condition_sell dataframe strategy
       = Raise (KeyError "Close")) ∧
  ((∀ i, i < nrows dataframe → buyCondition i = false) →
     generate_buy_sell_signals condition_buy condition_sell dataframe strategy
       = Ok (None,
             with_signals dataframe strategy
               (replicate (nrows dataframe) None)
               (replicate (nrows dataframe) nan)
               (replicate (nrows dataframe) nan))).
Proof.
  intros Hclose Hbuy Hsell. split.
  - intros (i & Hi & Hb).
    destruct (first_true buyCondition (nrows dataframe))
      as [Hnever|(k & Hk & Hpk & Hmin)].
    { rewrite Hnever in Hb by done. discriminate Hb. }
    apply generate_of_scan_raise.
    eapply (scan_raise_at _ _ _ k); [done | |].
    + eapply scan_quiet; [done | done | lia | done].
    + unfold loop_body. rewrite (Hbuy k Hk), Hpk.
      cbn [mbind result_bind andb last_signal].
      rewrite bool_decide_eq_true_2 by done.
      unfold getitem. by rewrite Hclose.
  - intros Hnever.
    rewrite (generate_of_scan _ _ _ strategy
               (mkLoop None (replicate (nrows dataframe) None)
                       (replicate (nrows dataframe) nan)
                       (replicate (nrows dataframe) nan)));
      simpl; try apply length_replicate; [done|].
    unfold scan. by eapply scan_quiet.
Qed.

Lemma bare_frame_decided k :
  decides (at_step k) bare_frame (λ i, bool_decide (i = k)).
Proof. by intros i Hi. Qed.

Lemma bare_frame_never : decides never bare_frame (λ _, false).
Proof. by intros i Hi. Qed.

Lemma generate_buy_sell_signals_missing_close_witness :
  columns bare_frame !! "Close" = None ∧
  decides (at_step 1) bare_frame (λ i, bool_decide (i = 1)) ∧
  decides never bare_frame (λ _, false) ∧
  ((∃ i, i < nrows bare_frame ∧ bool_decide (i = 1) = true) →
     generate_buy_sell_signals (at_step 1) never bare_frame "Example"
       = Raise (KeyError "Close")) ∧
  ((∀ i, i < nrows bare_frame → bool_decide (i = 1) = false) →
     generate_buy_sell_signals (at_step 1) never bare_frame "Example"
       = Ok (None,
             with_signals bare_frame "Example"
               (replicate (nrows bare_frame) None)
               (replicate (nrows bare_frame) nan)
               (replicate (nrows bare_frame) nan))).
Proof.
  split; [reflexivity|].
  split; [apply bare_frame_decided|].
  split; [apply bare_frame_never|].
  apply (generate_buy_sell_signals_missing_close
           (at_step 1) never bare_frame "Example"
           (λ i, bool_decide (i = 1)) (λ _, false)
           eq_refl (bare_frame_decided 1) bare_frame_never).
Defined.

(** The scan over the first [k] rows needs the callables on those rows
    only. *)
Lemma scan_prefix_partial condition_buy condition_sell df
    buyCondition sellCondition closePrice k :
  has_close df closePrice → k ≤ nrows df →
  (∀ i, i < k → condition_buy i df = Ok (buyCondition i)) →
  (∀ i, i < k → condition_sell i df = Ok (sellCondition i)) →
  ∃ st, for_each (loop_body condition_buy condition_sell df) (range k)
                 (mkLoop None [] [] []) = Ok st ∧
        scan_inv buyCondition sellCondition closePrice k st.
Proof.
  intros Hclose Hk Hbuy Hsell.
  set (cb := λ i d, if decide (i < k) then condition_buy i d else Ok false).
  set (cs := λ i d, if decide (i < k) then condition_sell i d else Ok false).
  set (bc := λ i, if decide (i < k) then buyCondition i else false).
  set (sc := λ i, if decide (i < k) then sellCondition i else false).
  assert (decides cb df bc) as Hcb.
  { intros i _. unfold cb, bc. case_decide; [by apply Hbuy | done]. }
  assert (decides cs df sc) as Hcs.
  { intros i _. unfold cs, sc. case_decide; [by apply Hsell | done]. }
  destruct (scan_prefix cb cs df bc sc closePrice Hclose Hcb Hcs k Hk)
    as (st & Hrun & H1 & H2 & H3 & Hlast & Hrule).
  exists st. split.
  - rewrite <- Hrun. apply for_each_ext. intros i s Hi.
    apply list_elem_of_lookup in Hi as [j Hj].
    apply lookup_seq in Hj as [-> Hj]. simpl.
    unfold loop_body, cb, cs. by rewrite !decide_True by done.
  - repeat (split; [done|]). intros i Hi.
    destruct (Hrule i Hi) as (c & s & bm & sm & ? & ? & ? & ? & Hstep).
    exists c, s, bm, sm. repeat (split; [done|]).
    unfold bc, sc in Hstep. by rewrite !decide_True in Hstep by done.
Qed.

(** X2. An exception of a callable ends the run: when the rows before
    row k are evaluated without exception and condition_buy raises e at
    row k, or condition_buy returns False there and condition_sell raises
    e, the run raises e and returns no table. *)
Theorem generate_buy_sell_signals_callable_raises
    condition_buy condition_sell dataframe strategy
    buyCondition sellCondition closePrice k e :
  has_close dataframe closePrice → k < nrows dataframe →
  (∀ i, i < k → condition_buy i dataframe = Ok (buyCondition i)) →
  (∀ i, i < k → condition_sell i dataframe = Ok (sellCondition i)) →
  condition_buy k dataframe = Raise e ∨
  (condition_buy k dataframe = Ok false ∧
   condition_sell k dataframe = Raise e) →
  generate_buy_sell_signals condition_buy condition_sell dataframe strategy
    = Raise e.
Proof.
  intros Hclose Hk Hbuy Hsell Hraise.
  destruct (scan_prefix_partial _ _ _ _ _ _ k Hclose (Nat.lt_le_incl _ _ Hk)
              Hbuy Hsell) as (st & Hrun & _).
  apply generate_of_scan_raise. eapply scan_raise_at; [done | done |].
  unfold loop_body. destruct Hraise as [-> | [-> ->]]; done.
Qed.

Lemma failing_close_below_decided :
  ∀ i, i < 2 →
    failing_at 2 ValueError (close_below 10) i example_frame
      = Ok (example_buy i).
Proof. intros [|[|i]] Hi; [reflexivity | reflexivity | lia]. Qed.

Lemma close_above_decided_below k :
  ∀ i, i < k → k ≤ 5 → close_above 11 i example_frame = Ok (example_sell i).
Proof. intros i Hi Hk. apply example_sell_decided. simpl. lia. Qed.

Lemma generate_buy_sell_signals_callable_raises_witness :
  has_close example_frame example_prices ∧ 2 < nrows example_frame ∧
  (∀ i, i < 2 →
     failing_at 2 ValueError (close_below 10) i example_frame
       = Ok (example_buy i)) ∧
  (∀ i, i < 2 → close_above 11 i example_frame = Ok (example_sell i)) ∧
  (failing_at 2 ValueError (close_below 10) 2 example_frame
     = Raise ValueError ∨
   (failing_at 2 ValueError (close_below 10) 2 example_frame = Ok false ∧
    close_above 11 2 example_frame = Raise ValueError)) ∧
  generate_buy_sell_signals (failing_at 2 ValueError (close_below 10))
                            (close_above 11) example_frame "Example"
    = Raise ValueError.
Proof.
  assert (2 < nrows example_frame) as H2 by (simpl; lia).
  assert (∀ i, i < 2 → close_above 11 i example_frame = Ok (example_sell i))
    as Hsell by (intros i Hi; apply (close_above_decided_below 2); lia).
  split; [apply example_has_close|]. split; [exact H2|].
  split; [apply failing_close_below_decided|]. split; [exact Hsell|].
  split; [left; reflexivity|].
  apply (generate_buy_sell_signals_callable_raises
           (failing_at 2 ValueError (close_below 10)) (close_above 11)
           example_frame "Example" example_buy example_sell example_prices
           2 ValueError example_has_close H2
           failing_close_below_decided Hsell (or_introl eq_refl)).
Defined.

(** ** The other columns of the table *)

Lemma append_cons a (s t : string) : String a s +:+ t = String a (s +:+ t).
Proof. reflexivity. Qed.

(** No strategy name makes a strategy column coincide with Close. *)
Lemma strategy_keys_not_close (strategy : string) :
  strategy +:+ "_Indicator" ≠ "Close" ∧
  strategy +:+ "_Buy" ≠ "Close" ∧
  strategy +:+ "_Sell" ≠ "Close".
Proof.
  repeat split; intros H;
    do 5 (destruct strategy as [|? strategy]; [discriminate H|];
          rewrite append_cons in H; injection H as _ H);
    destruct strategy; discriminate H.
Qed.

Lemma with_signals_lookup_ne df strategy state buyMarker sellMarker k :
  k ≠ strategy +:+ "_Indicator" → k ≠ strategy +:+ "_Buy" →
  k ≠ strategy +:+ "_Sell" →
  columns (with_signals df strategy state buyMarker sellMarker) !! k
    = columns df !! k.
Proof.
  intros H1 H2 H3. unfold with_signals. simpl.
  by rewrite !lookup_insert_ne.
Qed.

Lemma with_signals_has_close df strategy state buyMarker sellMarker closePrice :
  has_close df closePrice →
  has_close (with_signals df strategy state buyMarker sellMarker) closePrice.
Proof.
  intros [Hcol Hlen].
  destruct (strategy_keys_not_close strategy) as (H1 & H2 & H3).
  split; [|done]. by rewrite with_signals_lookup_ne.
Qed.

(** X3. A run keeps the row count and every column other than the three
    it writes; whatever the strategy name, the Close column is among the
    columns kept. *)
Theorem generate_buy_sell_signals_keeps_columns
    condition_buy condition_sell dataframe strategy
    buyCondition sellCondition closePrice :
  has_close dataframe closePrice →
  decides condition_buy dataframe buyCondition →
  decides condition_sell dataframe sellCondition →
  ∃ lastState df',
    generate_buy_sell_signals condition_buy condition_sell dataframe strategy
      = Ok (lastState, df') ∧
    nrows df' = nrows dataframe ∧
    has_close df' closePrice ∧
    ∀ k, k ≠ strategy +:+ "_Indicator" → k ≠ strategy +:+ "_Buy" →
         k ≠ strategy +:+ "_Sell" →
         columns df' !! k = columns dataframe !! k.
Proof.
  intros Hclose Hbuy Hsell.
  destruct (generate_run _ _ _ strategy _ _ _ Hclose Hbuy Hsell)
    as (state & bm & sm & Hrun & _).
  eexists _, _. split; [exact Hrun|]. split; [done|].
  split; [by apply with_signals_has_close|].
  intros k. apply with_signals_lookup_ne.
Qed.

Lemma generate_buy_sell_signals_keeps_columns_witness :
  has_close example_frame example_prices ∧
  decides (close_below 10) example_frame example_buy ∧
  decides (close_above 11) example_frame example_sell ∧
  ∃ lastState df',
    generate_buy_sell_signals (close_below 10) (close_above 11)
                              example_frame "Close"
      = Ok (lastState, df') ∧
    nrows df' = nrows example_frame ∧
    has_close df' example_prices ∧
    ∀ k, k ≠ "Close" +:+ "_Indicator" → k ≠ "Close" +:+ "_Buy" →
         k ≠ "Close" +:+ "_Sell" →
         columns df' !! k = columns example_frame !! k.
Proof.
  split; [apply example_has_close|].
  split; [apply example_buy_decided|].
  split; [apply example_sell_decided|].
  apply (generate_buy_sell_signals_keeps_columns
           (close_below 10) (close_above 11) example_frame "Close"
           example_buy example_sell example_prices
           example_has_close example_buy_decided example_sell_decided).
Defined.

(** ** Positions: how buy and sell steps alternate *)

Section Positions.
Variables (buyCondition sellCondition : nat → bool).
Variable closePrice : list float.
Variable n : nat.
Variable state : list (option string).
Variables buyMarker sellMarker : list float.
Hypothesis Hrule :
  follows_rule buyCondition sellCondition closePrice n
               state buyMarker sellMarker.

(** In Buy, a step without the sell condition changes nothing. *)
Lemma rule_holds_position i :
  i < n → state_before state i = Some "Buy" → sellCondition i = false →
  state !! i = Some (Some "Buy") ∧ buyMarker !! i = Some nan ∧
  sellMarker !! i = Some nan.
Proof.
  intros Hi Hprev Hs.
  destruct (Hrule i Hi) as (c & s & bm & sm & _ & -> & -> & -> & Hstep).
  rewrite Hprev, Hs in Hstep. by inversion Hstep.
Qed.

(** From Buy the state stays Buy until a sell step. *)
Lemma rule_buy_until_sell i m :
  S i ≤ m → m ≤ n → state_before state (S i) = Some "Buy" →
  state_before state m = Some "Buy" ∨ ∃ k, i < k < m ∧ sell_step state k.
Proof.
  intros Him Hm Hstart. induction Him as [|m Him IH]; [by left|].
  destruct IH as [Hbuy|(k & Hk & Hsell)]; [lia | |].
  - destruct (Hrule m) as (c & s & bm & sm & _ & Hs & _ & _ & Hstep); [lia|].
    cbn [state_before]. rewrite Hs. simpl.
    inversion Hstep as [? Hne | | ]; subst.
    + by destruct Hne.
    + right. exists m. split; [lia|]. by split.
    + by left.
  - right. exists k. split; [lia | done].
Qed.

(** From Sell the state stays Sell until a buy step. *)
Lemma rule_sell_until_buy i m :
  S i ≤ m → m ≤ n → state_before state (S i) = Some "Sell" →
  state_before state m = Some "Sell" ∨ ∃ k, i < k < m ∧ buy_step state k.
Proof.
  intros Him Hm Hstart. induction Him as [|m Him IH]; [by left|].
  destruct IH as [Hsell|(k & Hk & Hbuy)]; [lia | |].
  - destruct (Hrule m) as (c & s & bm & sm & _ & Hs & _ & _ & Hstep); [lia|].
    cbn [state_before]. rewrite Hs. simpl.
    inversion Hstep as [ | ? ? Hcur | ]; subst.
    + right. exists m. split; [lia|]. split; [done|]. by rewrite Hsell.
    + rewrite Hsell in Hcur. discriminate Hcur.
    + by left.
  - right. exists k. split; [lia | done].
Qed.

(** A state other than None was entered by a buy step. *)
Lemma rule_opened_before m :
  m ≤ n → state_before state m ≠ None → ∃ i, i < m ∧ buy_step state i.
Proof.
  induction m as [|m IH]; intros Hm Hsome; [done|].
  destruct (Hrule m) as (c & s & bm & sm & _ & Hs & _ & _ & Hstep); [lia|].
  cbn [state_before] in Hsome. rewrite Hs in Hsome. simpl in Hsome.
  inversion Hstep as [ | ? ? Hcur | ]; subst.
  - exists m. split; [lia|]. by split.
  - destruct IH as (i & Hi & Hbuy); [lia | by rewrite Hcur |].
    exists i. split; [lia | done].
  - destruct IH as (i & Hi & Hbuy); [lia | done |].
    exists i. split; [lia | done].
Qed.

Lemma rule_alternates :
  (∀ i j, i < j → j < n → buy_step state i → buy_step state j →
     ∃ k, i < k < j ∧ sell_step state k) ∧
  (∀ i j, i < j → j < n → sell_step state i → sell_step state j →
     ∃ k, i < k < j ∧ buy_step state k) ∧
  (∀ j, j < n → sell_step state j → ∃ i, i < j ∧ buy_step state i).
Proof.
  split; [|split].
  - intros i j Hij Hj [Hi _] [_ Hjprev].
    destruct (rule_buy_until_sell i j) as [Hbuy|Hk]; [lia | lia | | done | done].
    cbn [state_before]. by rewrite Hi.
  - intros i j Hij Hj [Hi _] [_ Hjprev].
    destruct (rule_sell_until_buy i j) as [Hsell|Hk]; [lia | lia | | | done].
    + cbn [state_before]. by rewrite Hi.
    + rewrite Hsell in Hjprev. discriminate Hjprev.
  - intros j Hj [_ Hjprev].
    apply rule_opened_before; [lia | by rewrite Hjprev].
Qed.

(** The markers of a row against the step taken there. *)
Lemma rule_markers i c :
  i < n → closePrice !! i = Some c →
  ∃ bm sm,
    buyMarker !! i = Some bm ∧ sellMarker !! i = Some sm ∧
    (bm = c ∨ bm = nan) ∧ (sm = c ∨ sm = nan) ∧
    (isna c = false →
       (bm = c ↔ buy_step state i) ∧ (sm = c ↔ sell_step state i)).
Proof.
  intros Hi Hc.
  destruct (Hrule i Hi) as (c' & s & bm & sm & Hc' & Hs & Hb & Hsm & Hstep).
  rewrite Hc in Hc'. injection Hc' as <-.
  exists bm, sm. do 2 (split; [done|]).
  unfold buy_step, sell_step. rewrite Hs.
  assert (∀ x : float, isna x = false → nan = x → False) as Hnan
    by (intros x Hx <-; discriminate Hx).
  inversion Hstep as [? Hne | Hno ? Hcur | Hno Hno']; subst.
  - split; [by left|]. split; [by right|]. intros Hnum. split; split.
    + done.
    + done.
    + intros Heq. destruct (Hnan _ Hnum Heq).
    + by intros [[=] _].
  - split; [by right|]. split; [by left|]. intros Hnum. split; split.
    + intros Heq. destruct (Hnan _ Hnum Heq).
    + by intros [[=] _].
    + done.
    + done.
  - split; [by right|]. split; [by right|]. intros Hnum. split; split.
    + intros Heq. destruct (Hnan _ Hnum Heq).
    + intros [[= Hs'] Hne]. by rewrite Hs' in Hne.
    + intros Heq. destruct (Hnan _ Hnum Heq).
    + intros [[= Hs'] Hcur]. rewrite Hcur in Hs'. discriminate Hs'.
Qed.

(** The state after the last row is None exactly when the buy condition
    held at no row. *)
Lemma rule_none_iff_never_buy :
  state_before state n = None ↔ ∀ i, i < n → buyCondition i = false.
Proof.
  split.
  - intros Hlast i Hi.
    assert (state_before state i = None) as Hprev
      by (apply (rule_none_prefix _ _ _ _ _ _ _ Hrule i n); [lia | lia | done]).
    assert (state_before state (S i) = None) as Hnext
      by (apply (rule_none_prefix _ _ _ _ _ _ _ Hrule (S i) n);
          [lia | lia | done]).
    destruct (Hrule i Hi) as (c & s & bm & sm & _ & Hs & _ & _ & Hstep).
    cbn [state_before] in Hnext. rewrite Hs in Hnext. simpl in Hnext.
    subst s. rewrite Hprev in Hstep.
    inversion Hstep as [ | | Hno _]; subst.
    destruct (buyCondition i); [|done]. destruct Hno. by split.
  - intros Hnever. destruct n as [|m] eqn:Hn; [done|].
    destruct (rule_never_buy _ _ _ _ _ _ _ Hrule Hnever m) as (_ & Hs & _);
      [lia|].
    cbn [state_before]. by rewrite Hs.
Qed.

End Positions.

(** X4. Positions alternate. While the state is Buy, a row without the
    sell condition leaves the state Buy and writes no marker, whatever the
    buy condition. Between two steps that enter Buy there is a step from
    Buy to Sell, between two steps from Buy to Sell there is a step that
    enters Buy, and every step to Sell comes after a step that entered
    Buy. *)
Theorem generate_buy_sell_signals_alternates
    condition_buy condition_sell dataframe strategy
    buyCondition sellCondition closePrice :
  has_close dataframe closePrice →
  decides condition_buy dataframe buyCondition →
  decides condition_sell dataframe sellCondition →
  ∃ lastState df' state buyMarker sellMarker,
    generate_buy_sell_signals condition_buy condition_sell dataframe strategy
      = Ok (lastState, df') ∧
    signal_columns df' strategy state buyMarker sellMarker ∧
    length state = nrows dataframe ∧
    (∀ i, i < nrows dataframe → state_before state i = Some "Buy" →
       sellCondition i = false →
       state !! i = Some (Some "Buy") ∧ buyMarker !! i = Some nan ∧
       sellMarker !! i = Some nan) ∧
    (∀ i j, i < j → j < nrows dataframe →
       buy_step state i → buy_step state j →
       ∃ k, i < k < j ∧ sell_step state k) ∧
    (∀ i j, i < j → j < nrows dataframe →
       sell_step state i → sell_step state j →
       ∃ k, i < k < j ∧ buy_step state k) ∧
    (∀ j, j < nrows dataframe → sell_step state j →
       ∃ i, i < j ∧ buy_step state i).
Proof.
  intros Hclose Hbuy Hsell.
  destruct (generate_run _ _ _ strategy _ _ _ Hclose Hbuy Hsell)
    as (state & bm & sm & Hrun & H1 & H2 & H3 & Hrule).
  eexists _, _, state, bm, sm. split; [exact Hrun|].
  split; [apply with_signals_columns|]. split; [done|]. split.
  - intros i Hi Hprev Hs. by eapply rule_holds_position.
  - by eapply rule_alternates.
Qed.

Lemma generate_buy_sell_signals_alternates_witness :
  has_close example_frame example_prices ∧
  decides (close_below 10) example_frame example_buy ∧
  decides (close_above 11) example_frame example_sell ∧
  ∃ lastState df' state buyMarker sellMarker,
    generate_buy_sell_signals (close_below 10) (close_above 11)
                              example_frame "Example"
      = Ok (lastState, df') ∧
    signal_columns df' "Example" state buyMarker sellMarker ∧
    length state = nrows example_frame ∧
    (∀ i, i < nrows example_frame → state_before state i = Some "Buy" →
       example_sell i = false →
       state !! i = Some (Some "Buy") ∧ buyMarker !! i = Some nan ∧
       sellMarker !! i = Some nan) ∧
    (∀ i j, i < j → j < nrows example_frame →
       buy_step state i → buy_step state j →
       ∃ k, i < k < j ∧ sell_step state k) ∧
    (∀ i j, i < j → j < nrows example_frame →
       sell_step state i → sell_step state j →
       ∃ k, i < k < j ∧ buy_step state k) ∧
    (∀ j, j < nrows example_frame → sell_step state j →
       ∃ i, i < j ∧ buy_step state i).
Proof.
  split; [apply example_has_close|].
  split; [apply example_buy_decided|].
  split; [apply example_sell_decided|].
  apply (generate_buy_sell_signals_alternates
           (close_below 10) (close_above 11) example_frame "Example"
           example_buy example_sell example_prices
           example_has_close example_buy_decided example_sell_decided).
Defined.

(** X5. The markers mark the transitions. A marker is either missing or
    the closing price of its row; on a row whose closing price is a
    number, the buy marker is present exactly when the step enters Buy and
    the sell marker exactly when the step goes from Buy to Sell. *)
Theorem generate_buy_sell_signals_markers
    condition_buy condition_sell dataframe strategy
    buyCondition sellCondition closePrice :
  has_close dataframe closePrice →
  decides condition_buy dataframe buyCondition →
  decides condition_sell dataframe sellCondition →
  ∃ lastState df' state buyMarker sellMarker,
    generate_buy_sell_signals condition_buy condition_sell dataframe strategy
      = Ok (lastState, df') ∧
    signal_columns df' strategy state buyMarker sellMarker ∧
    ∀ i c, i < nrows dataframe → closePrice !! i = Some c →
      ∃ bm sm,
        buyMarker !! i = Some bm ∧ sellMarker !! i = Some sm ∧
        (bm = c ∨ bm = nan) ∧ (sm = c ∨ sm = nan) ∧
        (isna c = false →
           (bm = c ↔ buy_step state i) ∧ (sm = c ↔ sell_step state i)).
Proof.
  intros Hclose Hbuy Hsell.
  destruct (generate_run _ _ _ strategy _ _ _ Hclose Hbuy Hsell)
    as (state & bm & sm & Hrun & H1 & H2 & H3 & Hrule).
  eexists _, _, state, bm, sm. split; [exact Hrun|].
  split; [apply with_signals_columns|].
  intros i c Hi Hc. by eapply rule_markers.
Qed.

Lemma generate_buy_sell_signals_markers_witness :
  has_close example_frame example_prices ∧
  decides (close_below 10) example_frame example_buy ∧
  decides (close_above 11) example_frame example_sell ∧
  ∃ lastState df' state buyMarker sellMarker,
    generate_buy_sell_signals (close_below 10) (close_above 11)
                              example_frame "Example"
      = Ok (lastState, df') ∧
    signal_columns df' "Example" state buyMarker sellMarker ∧
    ∀ i c, i < nrows example_frame → example_prices !! i = Some c →
      ∃ bm sm,
        buyMarker !! i = Some bm ∧ sellMarker !! i = Some sm ∧
        (bm = c ∨ bm = nan) ∧ (sm = c ∨ sm = nan) ∧
        (isna c = false →
           (bm = c ↔ buy_step state i) ∧ (sm = c ↔ sell_step state i)).
Proof.
  split; [apply example_has_close|].
  split; [apply example_buy_decided|].
  split; [apply example_sell_decided|].
  apply (generate_buy_sell_signals_markers
           (close_below 10) (close_above 11) example_frame "Example"
           example_buy example_sell example_prices
           example_has_close example_buy_decided example_sell_decided).
Defined.

(** X6. The scalar a run returns is None, "Buy" or "Sell", and it is None
    exactly when the buy condition holds at no row. *)
Theorem generate_buy_sell_signals_last_signal
    condition_buy condition_sell dataframe strategy
    buyCondition sellCondition closePrice :
  has_close dataframe closePrice →
  decides condition_buy dataframe buyCondition →
  decides condition_sell dataframe sellCondition →
  ∃ lastState df',
    generate_buy_sell_signals condition_buy condition_sell dataframe strategy
      = Ok (lastState, df') ∧
    (lastState = None ∨ lastState = Some "Buy" ∨ lastState = Some "Sell") ∧
    (lastState = None ↔ ∀ i, i < nrows dataframe → buyCondition i = false).
Proof.
  intros Hclose Hbuy Hsell.
  destruct (generate_run _ _ _ strategy _ _ _ Hclose Hbuy Hsell)
    as (state & bm & sm & Hrun & H1 & H2 & H3 & Hrule).
  eexists _, _. split; [exact Hrun|]. split.
  - by eapply rule_state_values.
  - by eapply rule_none_iff_never_buy.
Qed.

Lemma generate_buy_sell_signals_last_signal_witness :
  has_close example_frame example_prices ∧
  decides (close_below 10) example_frame example_buy ∧
  decides (close_above 11) example_frame example_sell ∧
  ∃ lastState df',
    generate_buy_sell_signals (close_below 10) (close_above 11)
                              example_frame "Example"
      = Ok (lastState, df') ∧
    (lastState = None ∨ lastState = Some "Buy" ∨ lastState = Some "Sell") ∧
    (lastState = None ↔ ∀ i, i < nrows example_frame → example_buy i = false).
Proof.
  split; [apply example_has_close|].
  split; [apply example_buy_decided|].
  split; [apply example_sell_decided|].
  apply (generate_buy_sell_signals_last_signal
           (close_below 10) (close_above 11) example_frame "Example"
           example_buy example_sell example_prices
           example_has_close example_buy_decided example_sell_decided).
Defined.

(** ** More on the KPI block *)

Lemma iloc_empty i : iloc [] i = Raise IndexError.
Proof.
  unfold iloc. change (Z.of_nat (length [])) with 0%Z. cbv zeta.
  set (k := if (i <? 0)%Z then (i + 0)%Z else i).
  destruct ((0 <=? k) && (k <? 0))%Z eqn:Hk; [|done].
  apply andb_prop in Hk as [H1 H2].
  apply Z.leb_le in H1. apply Z.ltb_lt in H2. lia.
Qed.

(** X7. The KPI block raises exactly on the empty series, and what it
    raises there is the IndexError of [iloc[-1]]; on every other series it
    returns. *)
Theorem index_kpi_raises_iff_empty (price : list float) :
  (raises (index_kpi price) ↔ price = []) ∧
  (price = [] → index_kpi price = Raise IndexError) ∧
  (price ≠ [] → ∃ k, index_kpi price = Ok k).
Proof.
  assert (price ≠ [] → ∃ k, index_kpi price = Ok k) as Hok.
  { intros Hne. destruct price as [|p0 rest]; [done|].
    destruct (index_kpi_run (p0 :: rest) p0 eq_refl) as (pn & _ & ->).
    by eexists. }
  assert (price = [] → index_kpi price = Raise IndexError) as Hraise.
  { intros ->. unfold index_kpi. by rewrite iloc_empty. }
  split; [|done]. split.
  - intros [e He]. destruct price as [|p0 rest]; [done|].
    destruct Hok as [k Hk]; [done|]. rewrite Hk in He. discriminate He.
  - intros Hnil. exists IndexError. by apply Hraise.
Qed.

Lemma reduce_skipna_number (op : float → float → float) s :
  (∀ x y, op x y = x ∨ op x y = y) →
  (isna (reduce_skipna op s) = true ↔ ∀ x, x ∈ s → isna x = true).
Proof.
  intros Hop. unfold reduce_skipna.
  destruct (filter (λ x, isna x = false) s) as [|x rest] eqn:Hf.
  - split; [|done]. intros _ y Hy.
    destruct (isna y) eqn:Hnum; [done|].
    assert (y ∈ filter (λ x, isna x = false) s) as Hin
      by (by apply list_elem_of_filter).
    rewrite Hf in Hin. by apply not_elem_of_nil in Hin.
  - assert (∀ y, y ∈ x :: rest → isna y = false ∧ y ∈ s) as Hall.
    { intros y Hy. rewrite <- Hf in Hy. by apply list_elem_of_filter in Hy. }
    destruct (foldl_bound op (λ _ _, True) (λ _ _, I) (λ _ _ _ _ _, I) Hop
                (λ _ _ _ _, I) (λ _ _ _ _, I) rest x) as [Hin _].
    { apply Hall, list_elem_of_here. }
    { intros y Hy. by apply Hall, list_elem_of_further. }
    destruct (Hall _ Hin) as [Hnum Hs]. split.
    + intros Hnan. rewrite Hnan in Hnum. discriminate Hnum.
    + intros Hnone. rewrite (Hnone _ Hs) in Hnum. discriminate Hnum.
Qed.

(** X8. High and low skip missing entries: on a series with at least one
    entry, each of them is NaN exactly when every entry of the series is
    NaN. *)
Theorem index_kpi_high_low_missing (price : list float) :
  price ≠ [] →
  ∃ k, index_kpi price = Ok k ∧
       (isna (high k) = true ↔ ∀ x, x ∈ price → isna x = true) ∧
       (isna (low k) = true ↔ ∀ x, x ∈ price → isna x = true).
Proof.
  intros Hne. destruct price as [|p0 rest]; [done|].
  destruct (index_kpi_run (p0 :: rest) p0 eq_refl) as (pn & _ & ->).
  eexists. split; [reflexivity|]. simpl. split.
  - apply reduce_skipna_number. intros x y. unfold fmax.
    destruct (ltb x y); auto.
  - apply reduce_skipna_number. intros x y. unfold fmin.
    destruct (ltb y x); auto.
Qed.

Lemma index_kpi_high_low_missing_witness :
  [nan; of_Z 3; nan] ≠ [] ∧
  ∃ k, index_kpi [nan; of_Z 3; nan] = Ok k ∧
       (isna (high k) = true ↔ ∀ x, x ∈ [nan; of_Z 3; nan] → isna x = true) ∧
       (isna (low k) = true ↔ ∀ x, x ∈ [nan; of_Z 3; nan] → isna x = true).
Proof.
  split; [discriminate|].
  apply (index_kpi_high_low_missing [nan; of_Z 3; nan]). discriminate.
Defined.

(** X9. The last price lies between low and high: on a series whose last
    entry is a number, low <= lastPrice <= high, and so low <= high. *)
Theorem index_kpi_last_between (price : list float) (pn : float) :
  price !! (length price - 1) = Some pn → isna pn = false →
  ∃ k, index_kpi price = Ok k ∧
       last_price k = pn ∧
       leb (low k) (last_price k) = true ∧
       leb (last_price k) (high k) = true ∧
       leb (low k) (high k) = true.
Proof.
  intros Hlast Hnum.
  assert (price ≠ []) as Hne by (intros ->; discriminate Hlast).
  destruct price as [|p0 rest] eqn:Hprice; [done|]. rewrite <- Hprice in *.
  assert (price !! 0 = Some p0) as H0 by (by rewrite Hprice).
  destruct (index_kpi_run price p0 H0) as (pn' & Hn & Hrun).
  rewrite Hlast in Hn. injection Hn as <-.
  eexists. split; [exact Hrun|]. simpl.
  assert (pn ∈ price) as Hin by (by eapply list_elem_of_lookup_2).
  destruct (series_max_is_max price Hne) as [_ Hmax].
  destruct (series_min_is_min price Hne) as [_ Hmin].
  split; [done|]. split; [by apply Hmin|]. split; [by apply Hmax|].
  eapply leb_trans; [by apply Hmin | by apply Hmax].
Qed.

Lemma index_kpi_last_between_witness :
  example_prices !! (length example_prices - 1) = Some (of_Z 8) ∧
  isna (of_Z 8) = false ∧
  ∃ k, index_kpi example_prices = Ok k ∧
       last_price k = of_Z 8 ∧
       leb (low k) (last_price k) = true ∧
       leb (last_price k) (high k) = true ∧
       leb (low k) (high k) = true.
Proof.
  split; [reflexivity|]. split; [reflexivity|].
  apply (index_kpi_last_between example_prices (of_Z 8) eq_refl eq_refl).
Defined.

(** ** The table of the orchestrator *)

Lemma align_self p : align (length p) p = p.
Proof.
  unfold align. rewrite take_ge by lia. rewrite Nat.sub_diag. simpl.
  apply app_nil_r.
Qed.

Lemma close_frame_rows p :
  p ≠ [] →
  setitem_series empty_frame "Close" p
    = mkDataFrame (length p) {[ "Close" := FloatCol p ]}.
Proof.
  intros Hne.
  assert (0 < length p) as Hlen by (destruct p; [done | simpl; lia]).
  unfold setitem_series, ensure_valid_index.
  rewrite decide_True by (split; [done | exact Hlen]).
  cbn [nrows columns].
  change (columns empty_frame) with (∅ : gmap string column).
  rewrite fmap_empty, insert_empty. by rewrite align_self.
Qed.

Lemma setitem_series_rows df key s :
  0 < nrows df → setitem_series df key s = put_series (nrows df) df key s.
Proof.
  intros Hn. unfold setitem_series, ensure_valid_index, put_series.
  rewrite decide_False by lia. reflexivity.
Qed.

Lemma values_at_cell df key l i :
  columns df !! key = Some (FloatCol l) → length l = nrows df →
  i < nrows df → values_at df key i = Ok (cell l i).
Proof.
  intros Hcol Hlen Hi. unfold values_at, getitem, at_pos, cell.
  rewrite Hcol. simpl.
  destruct (lookup_lt_is_Some_2 l i) as [v Hv]; [lia|]. by rewrite Hv.
Qed.

Lemma decides_compare df k1 k2 l1 l2 (f : float → float → bool) :
  columns df !! k1 = Some (FloatCol l1) → length l1 = nrows df →
  columns df !! k2 = Some (FloatCol l2) → length l2 = nrows df →
  decides (λ x d, a ← values_at d k1 x; b ← values_at d k2 x; Ok (f a b))
          df (λ i, f (cell l1 i) (cell l2 i)).
Proof.
  intros H1 Hl1 H2 Hl2 i Hi.
  rewrite (values_at_cell df k1 l1 i) by done. simpl.
  by rewrite (values_at_cell df k2 l2 i) by done.
Qed.

Lemma decides_threshold df k l (f : float → bool) :
  columns df !! k = Some (FloatCol l) → length l = nrows df →
  decides (λ x d, a ← values_at d k x; Ok (f a)) df (λ i, f (cell l i)).
Proof.
  intros H1 Hl1 i Hi. by rewrite (values_at_cell df k l i) by done.
Qed.

(** A run, with its three sequences gathered in one record. *)
Lemma generate_series condition_buy condition_sell df strategy
    buyCondition sellCondition closePrice :
  has_close df closePrice →
  decides condition_buy df buyCondition →
  decides condition_sell df sellCondition →
  ∃ x : signal_series,
    generate_buy_sell_signals condition_buy condition_sell df strategy
      = Ok (state_before (series_state x) (nrows df),
            put_signals df strategy x) ∧
    follows_rule buyCondition sellCondition closePrice (nrows df)
                 (series_state x) (series_buy x) (series_sell x) ∧
    length (series_state x) = nrows df ∧
    length (series_buy x) = nrows df ∧
    length (series_sell x) = nrows df ∧
    py_or (state_before (series_state x) (nrows df)) "None"
      = signal_text (state_before (series_state x) (nrows df)).
Proof.
  intros Hclose Hbuy Hsell.
  destruct (generate_run _ _ _ strategy _ _ _ Hclose Hbuy Hsell)
    as (state & bm & sm & Hrun & H1 & H2 & H3 & Hrule).
  exists (mkSeries state bm sm). simpl. repeat (split; [done|]).
  apply py_or_signal_text. by eapply rule_state_values.
Qed.

Lemma put_series_has_close n d key s closePrice :
  key ≠ "Close" → nrows d = n → has_close d closePrice →
  has_close (put_series n d key s) closePrice.
Proof.
  intros Hne Hn [Hcol Hlen]. split; simpl; [|lia].
  by rewrite lookup_insert_ne.
Qed.

Lemma put_signals_has_close d strategy x closePrice :
  has_close d closePrice → has_close (put_signals d strategy x) closePrice.
Proof. apply with_signals_has_close. Qed.

Section Table.
Context `{ta : TaLibrary}.

Ltac rewrite_rows Hn d :=
  match goal with
  | |- context [setitem_series ?df ?k ?s] =>
      rewrite (setitem_series_rows df k s) by exact Hn
  end;
  repeat match goal with
  | |- context [setitem_series (put_series ?n ?d0 ?k0 ?s0) ?k ?s] =>
      rewrite (setitem_series_rows (put_series n d0 k0 s0) k s) by exact Hn
  end;
  match goal with
  | |- context [generate_buy_sell_signals _ _ ?d' _] => change d' with d
  end.

Ltac run_series Hclose Hb Hs :=
  match goal with
  | |- context [generate_buy_sell_signals ?cb ?cs ?d ?s] =>
      let Hrun := fresh "Hrun" in
      destruct (generate_series cb cs d s _ _ _ Hclose Hb Hs)
        as (x & Hrun & Hrule & Hl1 & Hl2 & Hl3 & Htext);
      rewrite Hrun; cbn [mbind result_bind fst snd]; rewrite Htext
  end.

Lemma get_macd_table company p df closePrice :
  prices company = Some p → technical_indicators company = Some df →
  has_close df closePrice → 0 < nrows df →
  let n := nrows df in
  let d := put_series n (put_series n (put_series n df
             "MACD" (MACD_macd p 26 12 9))
             "MACD_Histogram" (MACD_macd_diff p 26 12 9))
             "MACD_Signal" (MACD_macd_signal p 26 12 9) in
  ∃ x : signal_series,
    get_macd company
      = Ok (store_frame company (put_signals d "MACD" x),
            signal_text (state_before (series_state x) n)) ∧
    follows_rule
      (below (align n (MACD_macd p 26 12 9))
             (align n (MACD_macd_signal p 26 12 9)))
      (below (align n (MACD_macd_signal p 26 12 9))
             (align n (MACD_macd p 26 12 9)))
      closePrice n (series_state x) (series_buy x) (series_sell x) ∧
    length (series_state x) = n ∧ length (series_buy x) = n ∧
    length (series_sell x) = n.
Proof.
  intros Hp Hdf Hclose Hn n d. unfold get_macd, the_prices, the_frame.
  rewrite Hp, Hdf. cbn [mbind result_bind]. cbv zeta.
  rewrite_rows Hn d.
  assert (has_close d closePrice) as Hd.
  { do 3 (apply put_series_has_close; [keys_differ | done |]). done. }
  assert (columns d !! "MACD"
            = Some (FloatCol (align n (MACD_macd p 26 12 9)))) as Hm.
  { unfold d, put_series. cbn [columns].
    do 2 rewrite lookup_insert_ne by keys_differ. apply lookup_insert_eq. }
  assert (columns d !! "MACD_Signal"
            = Some (FloatCol (align n (MACD_macd_signal p 26 12 9)))) as Hs
    by apply lookup_insert_eq.
  pose proof (decides_compare d "MACD" "MACD_Signal" _ _ ltb
                Hm (length_align _ _) Hs (length_align _ _)) as Hb.
  pose proof (decides_compare d "MACD" "MACD_Signal" _ _ (λ a b, ltb b a)
                Hm (length_align _ _) Hs (length_align _ _)) as Hsl.
  run_series Hd Hb Hsl.
  exists x. split; [reflexivity|]. split; [exact Hrule|]. done.
Qed.

Lemma get_rsi_table company p df closePrice window low_rsi high_rsi :
  prices company = Some p → technical_indicators company = Some df →
  has_close df closePrice → 0 < nrows df →
  let n := nrows df in
  let d := put_series n df "RSI" (RSIIndicator_rsi p window) in
  ∃ x : signal_series,
    get_rsi company window low_rsi high_rsi
      = Ok (store_frame company (put_signals d "RSI" x),
            signal_text (state_before (series_state x) n)) ∧
    follows_rule
      (below_level (align n (RSIIndicator_rsi p window)) low_rsi)
      (above_level (align n (RSIIndicator_rsi p window)) high_rsi)
      closePrice n (series_state x) (series_buy x) (series_sell x) ∧
    length (series_state x) = n ∧ length (series_buy x) = n ∧
    length (series_sell x) = n.
Proof.
  intros Hp Hdf Hclose Hn n d. unfold get_rsi, the_prices, the_frame.
  rewrite Hp, Hdf. cbn [mbind result_bind]. cbv zeta.
  rewrite_rows Hn d.
  assert (has_close d closePrice) as Hd
    by (apply put_series_has_close; [keys_differ | done | done]).
  assert (columns d !! "RSI"
            = Some (FloatCol (align n (RSIIndicator_rsi p window)))) as Hr
    by apply lookup_insert_eq.
  pose proof (decides_threshold d "RSI" _ (λ a, ltb a (of_Z low_rsi))
                Hr (length_align _ _)) as Hb.
  pose proof (decides_threshold d "RSI" _ (λ a, ltb (of_Z high_rsi) a)
                Hr (length_align _ _)) as Hsl.
  run_series Hd Hb Hsl.
  exists x. split; [reflexivity|]. split; [exact Hrule|]. done.
Qed.

Lemma get_bollinger_bands_table company p df closePrice window :
  prices company = Some p → technical_indicators company = Some df →
  has_close df closePrice → 0 < nrows df →
  let n := nrows df in
  let d := put_series n (put_series n (put_series n df
             "Bollinger_Bands_Middle" (BollingerBands_mavg p window 2))
             "Bollinger_Bands_Upper" (BollingerBands_hband p window 2))
             "Bollinger_Bands_Lower" (BollingerBands_lband p window 2) in
  ∃ x : signal_series,
    get_bollinger_bands company window
      = Ok (store_frame company (put_signals d "Bollinger_Bands" x),
            signal_text (state_before (series_state x) n)) ∧
    follows_rule
      (below closePrice (align n (BollingerBands_lband p window 2)))
      (below (align n (BollingerBands_hband p window 2)) closePrice)
      closePrice n (series_state x) (series_buy x) (series_sell x) ∧
    length (series_state x) = n ∧ length (series_buy x) = n ∧
    length (series_sell x) = n.
Proof.
  intros Hp Hdf Hclose Hn n d.
  unfold get_bollinger_bands, the_prices, the_frame.
  rewrite Hp, Hdf. cbn [mbind result_bind]. cbv zeta.
  rewrite_rows Hn d.
  assert (has_close d closePrice) as Hd.
  { do 3 (apply put_series_has_close; [keys_differ | done |]). done. }
  assert (columns d !! "Bollinger_Bands_Upper"
            = Some (FloatCol (align n (BollingerBands_hband p window 2))))
    as Hu.
  { unfold d, put_series. cbn [columns].
    rewrite lookup_insert_ne by keys_differ. apply lookup_insert_eq. }
  assert (columns d !! "Bollinger_Bands_Lower"
            = Some (FloatCol (align n (BollingerBands_lband p window 2))))
    as Hl by apply lookup_insert_eq.
  destruct Hd as [Hc Hclen].
  pose proof (decides_compare d "Close" "Bollinger_Bands_Lower" _ _ ltb
                Hc Hclen Hl (length_align _ _)) as Hb.
  pose proof (decides_compare d "Close" "Bollinger_Bands_Upper" _ _
                (λ a b, ltb b a) Hc Hclen Hu (length_align _ _)) as Hsl.
  run_series (conj Hc Hclen) Hb Hsl.
  exists x. split; [reflexivity|]. split; [exact Hrule|]. done.
Qed.

End Table.

Section Orchestrator.
Context `{ta : TaLibrary}.

(** What the orchestrator returns on a company with at least one price:
    the table, the map of last signals, and the rule each strategy
    follows. *)
Lemma set_technical_indicators_table company p :
  prices company = Some p → p ≠ [] →
  let n := length p in
  ∃ macd rsi boll : signal_series,
    set_technical_indicators company
      = Ok (mkCompany (symbol company)
                      (Some (indicator_table p macd rsi boll))
                      (prices company),
            {[ "MACD" := signal_text (state_before (series_state macd) n);
               "RSI" := signal_text (state_before (series_state rsi) n);
               "BOLL" := signal_text (state_before (series_state boll) n) ]}) ∧
    follows_rule
      (below (align n (MACD_macd p 26 12 9))
             (align n (MACD_macd_signal p 26 12 9)))
      (below (align n (MACD_macd_signal p 26 12 9))
             (align n (MACD_macd p 26 12 9)))
      p n (series_state macd) (series_buy macd) (series_sell macd) ∧
    follows_rule
      (below_level (align n (RSIIndicator_rsi p 20)) 40)
      (above_level (align n (RSIIndicator_rsi p 20)) 70)
      p n (series_state rsi) (series_buy rsi) (series_sell rsi) ∧
    follows_rule
      (below p (align n (BollingerBands_lband p 20 2)))
      (below (align n (BollingerBands_hband p 20 2)) p)
      p n (series_state boll) (series_buy boll) (series_sell boll) ∧
    (length (series_state macd) = n ∧ length (series_buy macd) = n ∧
     length (series_sell macd) = n) ∧
    (length (series_state rsi) = n ∧ length (series_buy rsi) = n ∧
     length (series_sell rsi) = n) ∧
    (length (series_state boll) = n ∧ length (series_buy boll) = n ∧
     length (series_sell boll) = n).
Proof.
  intros Hp Hne n.
  assert (0 < n) as Hn by (unfold n; destruct p; [done | simpl; lia]).
  unfold set_technical_indicators, the_prices.
  rewrite Hp. cbn [mbind result_bind]. cbv zeta.
  rewrite (close_frame_rows p Hne).
  set (d0 := mkDataFrame (length p) {[ "Close" := FloatCol p ]}).
  assert (has_close d0 p) as H0 by (split; reflexivity).
  destruct (get_macd_table (store_frame company d0) p d0 p Hp eq_refl H0 Hn)
    as (macd & -> & Hmacd & Hlm).
  cbn [mbind result_bind fst snd].
  match goal with
  | |- context [get_rsi (store_frame _ ?d) _ _ _] =>
      assert (has_close d p) as H1
        by (apply put_signals_has_close;
            do 3 (apply put_series_has_close; [keys_differ | done |]);
            exact H0);
      destruct (get_rsi_table (store_frame (store_frame company d0) d)
                  p d p 20 40 70 Hp eq_refl H1 Hn)
        as (rsi & -> & Hrsi & Hlr)
  end.
  cbn [mbind result_bind fst snd].
  match goal with
  | |- context [get_bollinger_bands (store_frame ?c ?d) _] =>
      assert (has_close d p) as H2
        by (apply put_signals_has_close;
            apply put_series_has_close; [keys_differ | done | exact H1]);
      destruct (get_bollinger_bands_table (store_frame c d) p d p 20
                  Hp eq_refl H2 Hn)
        as (boll & -> & Hboll & Hlb)
  end.
  cbn [mbind result_bind fst snd].
  exists macd, rsi, boll. split; [|done].
  unfold store_frame. cbn [symbol prices]. rewrite Hp. reflexivity.
Qed.

End Orchestrator.

(** *** Conditions and markers *)

Lemma ltb_missing a b : isna a = true ∨ isna b = true → ltb a b = false.
Proof.
  intros [Ha|Hb]; [apply isna_true in Ha | apply isna_true in Hb]; subst.
  - done.
  - by destruct a.
Qed.

Lemma rule_idle buyCondition sellCondition closePrice n
    state buyMarker sellMarker i :
  follows_rule buyCondition sellCondition closePrice n
               state buyMarker sellMarker →
  i < n → buyCondition i = false → sellCondition i = false →
  state !! i = Some (state_before state i) ∧
  buyMarker !! i = Some nan ∧ sellMarker !! i = Some nan.
Proof.
  intros Hrule Hi Hb Hs.
  destruct (Hrule i Hi) as (c & s & bm & sm & _ & -> & -> & -> & Hstep).
  rewrite Hb, Hs in Hstep. by inversion Hstep.
Qed.

Lemma rule_marker_condition buyCondition sellCondition closePrice n
    state buyMarker sellMarker i x :
  follows_rule buyCondition sellCondition closePrice n
               state buyMarker sellMarker →
  length buyMarker = n → length sellMarker = n → ¬ missing x →
  (buyMarker !! i = Some x → buyCondition i = true) ∧
  (sellMarker !! i = Some x → sellCondition i = true).
Proof.
  intros Hrule Hlb Hls Hx. split; intros Hm.
  - apply lookup_lt_Some in Hm as Hi. rewrite Hlb in Hi.
    destruct (Hrule i Hi) as (c & s & bm & sm & _ & _ & Hb & _ & Hstep).
    rewrite Hm in Hb. injection Hb as <-.
    inversion Hstep; subst; try done; by destruct Hx.
  - apply lookup_lt_Some in Hm as Hi. rewrite Hls in Hi.
    destruct (Hrule i Hi) as (c & s & bm & sm & _ & _ & _ & Hs & Hstep).
    rewrite Hm in Hs. injection Hs as <-.
    inversion Hstep; subst; try done; by destruct Hx.
Qed.

Section TableFacts.
Context `{ta : TaLibrary}.
Variable p : list float.
Variables macd rsi boll : signal_series.

Lemma indicator_table_lookups :
  let n := length p in
  let T := columns (indicator_table p macd rsi boll) in
  T !! "Close" = Some (FloatCol p) ∧
  T !! "MACD" = Some (FloatCol (align n (MACD_macd p 26 12 9))) ∧
  T !! "MACD_Histogram" = Some (FloatCol (align n (MACD_macd_diff p 26 12 9))) ∧
  T !! "MACD_Signal" = Some (FloatCol (align n (MACD_macd_signal p 26 12 9))) ∧
  T !! "MACD_Indicator" = Some (ObjCol (series_state macd)) ∧
  T !! "MACD_Buy" = Some (FloatCol (series_buy macd)) ∧
  T !! "MACD_Sell" = Some (FloatCol (series_sell macd)) ∧
  T !! "RSI" = Some (FloatCol (align n (RSIIndicator_rsi p 20))) ∧
  T !! "RSI_Indicator" = Some (ObjCol (series_state rsi)) ∧
  T !! "RSI_Buy" = Some (FloatCol (series_buy rsi)) ∧
  T !! "RSI_Sell" = Some (FloatCol (series_sell rsi)) ∧
  T !! "Bollinger_Bands_Middle"
    = Some (FloatCol (align n (BollingerBands_mavg p 20 2))) ∧
  T !! "Bollinger_Bands_Upper"
    = Some (FloatCol (align n (BollingerBands_hband p 20 2))) ∧
  T !! "Bollinger_Bands_Lower"
    = Some (FloatCol (align n (BollingerBands_lband p 20 2))) ∧
  T !! "Bollinger_Bands_Indicator" = Some (ObjCol (series_state boll)) ∧
  T !! "Bollinger_Bands_Buy" = Some (FloatCol (series_buy boll)) ∧
  T !! "Bollinger_Bands_Sell" = Some (FloatCol (series_sell boll)).
Proof. repeat split; reflexivity. Qed.

Lemma indicator_table_other k :
  k ∉ table_columns → columns (indicator_table p macd rsi boll) !! k = None.
Proof.
  intros Hk.
  assert (∀ key, bool_decide (key ∈ table_columns) = true → key ≠ k) as Hne.
  { intros key Hin <-. by apply bool_decide_eq_true in Hin. }
  unfold indicator_table, put_signals, put_series, with_signals.
  cbv zeta. cbn [columns nrows].
  rewrite !lookup_insert_ne by (by apply Hne).
  apply lookup_singleton_ne. by apply Hne.
Qed.

Lemma indicator_table_columns k :
  is_Some (columns (indicator_table p macd rsi boll) !! k)
  ↔ k ∈ table_columns.
Proof.
  split.
  - intros Hsome. destruct (decide (k ∈ table_columns)) as [|Hnot]; [done|].
    rewrite (indicator_table_other k Hnot) in Hsome. by destruct Hsome.
  - intros Hin. unfold table_columns in Hin.
    repeat (apply elem_of_cons in Hin as [->|Hin]; [by eexists|]).
    by apply not_elem_of_nil in Hin.
Qed.

Ltac column_case L Hin Hk :=
  apply elem_of_cons in Hin as [->|Hin];
  [rewrite L in Hk; injection Hk as <-; simpl;
   first [assumption | apply length_align | reflexivity]|].

Lemma indicator_table_wf :
  length (series_state macd) = length p → length (series_buy macd) = length p →
  length (series_sell macd) = length p →
  length (series_state rsi) = length p → length (series_buy rsi) = length p →
  length (series_sell rsi) = length p →
  length (series_state boll) = length p → length (series_buy boll) = length p →
  length (series_sell boll) = length p →
  ∀ k c, columns (indicator_table p macd rsi boll) !! k = Some c →
         col_len c = length p.
Proof.
  intros ????????? k c Hk.
  assert (k ∈ table_columns) as Hin
    by (apply indicator_table_columns; by eexists).
  unfold table_columns in Hin.
  pose proof indicator_table_lookups as L. cbv zeta in L.
  destruct L as (L1 & L2 & L3 & L4 & L5 & L6 & L7 & L8 & L9 & L10 & L11
                 & L12 & L13 & L14 & L15 & L16 & L17).
  column_case L1 Hin Hk. column_case L2 Hin Hk. column_case L3 Hin Hk. column_case L4 Hin Hk.
  column_case L5 Hin Hk. column_case L6 Hin Hk. column_case L7 Hin Hk. column_case L8 Hin Hk.
  column_case L9 Hin Hk. column_case L10 Hin Hk. column_case L11 Hin Hk. column_case L12 Hin Hk.
  column_case L13 Hin Hk. column_case L14 Hin Hk. column_case L15 Hin Hk. column_case L16 Hin Hk.
  column_case L17 Hin Hk. destruct (not_elem_of_nil _ Hin).
Qed.

End TableFacts.

Lemma example_prices_not_empty : example_prices ≠ [].
Proof. discriminate. Qed.

(** X10. For a company with at least one price the orchestrator returns a
    table with one row per price, whose Close column is the price series,
    whose columns are exactly the seventeen of [table_columns], each with
    one entry per price; symbol and prices of the company are unchanged. *)
Theorem set_technical_indicators_table_shape `{ta : TaLibrary}
    (company : Company) (p : list float) :
  prices company = Some p → p ≠ [] →
  ∃ c' df lastSignals,
    set_technical_indicators company = Ok (c', lastSignals) ∧
    technical_indicators c' = Some df ∧
    symbol c' = symbol company ∧ prices c' = prices company ∧
    nrows df = length p ∧
    columns df !! "Close" = Some (FloatCol p) ∧
    (∀ k, is_Some (columns df !! k) ↔ k ∈ table_columns) ∧
    (∀ k c, columns df !! k = Some c → col_len c = length p).
Proof.
  intros Hp Hne.
  destruct (set_technical_indicators_table company p Hp Hne)
    as (macd & rsi & boll & Hrun & _ & _ & _ & Hlm & Hlr & Hlb).
  eexists _, _, _. split; [exact Hrun|]. split; [reflexivity|].
  do 4 (split; [reflexivity|]). split.
  - apply indicator_table_columns.
  - destruct Hlm as (? & ? & ?), Hlr as (? & ? & ?), Hlb as (? & ? & ?).
    by apply indicator_table_wf.
Qed.

Lemma set_technical_indicators_table_shape_witness :
  prices example_company = Some example_prices ∧ example_prices ≠ [] ∧
  ∃ c' df lastSignals,
    @set_technical_indicators echo_ta example_company
      = Ok (c', lastSignals) ∧
    technical_indicators c' = Some df ∧
    symbol c' = symbol example_company ∧
    prices c' = prices example_company ∧
    nrows df = length example_prices ∧
    columns df !! "Close" = Some (FloatCol example_prices) ∧
    (∀ k, is_Some (columns df !! k) ↔ k ∈ table_columns) ∧
    (∀ k c, columns df !! k = Some c → col_len c = length example_prices).
Proof.
  split; [reflexivity|]. split; [apply example_prices_not_empty|].
  apply (@set_technical_indicators_table_shape echo_ta
           example_company example_prices eq_refl example_prices_not_empty).
Defined.



(** X12. The RSI strategy in the table: its three columns are the state
    machine run with the buy condition RSI[i] < 40 and the sell condition
    RSI[i] > 70 on the table's RSI column (window 20). A present buy
    marker means RSI was below 40 on that row, a present sell marker that
    it was above 70; a row where RSI is missing changes nothing; the RSI
    entry of the map is the text of the state after the last row. *)
Theorem set_technical_indicators_rsi `{ta : TaLibrary}
    (company : Company) (p : list float) :
  prices company = Some p → p ≠ [] →
  ∃ c' df lastSignals rsi state buyMarker sellMarker,
    set_technical_indicators company = Ok (c', lastSignals) ∧
    technical_indicators c' = Some df ∧
    columns df !! "RSI" = Some (FloatCol rsi) ∧
    rsi = align (length p) (RSIIndicator_rsi p 20) ∧
    signal_columns df "RSI" state buyMarker sellMarker ∧
    follows_rule (below_level rsi 40) (above_level rsi 70) p (length p)
                 state buyMarker sellMarker ∧
    (∀ i x, ¬ missing x →
       (buyMarker !! i = Some x → ltb (cell rsi i) (of_Z 40) = true) ∧
       (sellMarker !! i = Some x → ltb (of_Z 70) (cell rsi i) = true)) ∧
    (∀ i, i < length p → isna (cell rsi i) = true →
       state !! i = Some (state_before state i) ∧
       buyMarker !! i = Some nan ∧ sellMarker !! i = Some nan) ∧
    lastSignals !! "RSI" = Some (signal_text (state_before state (length p))).
Proof.
  intros Hp Hne.
  destruct (set_technical_indicators_table company p Hp Hne)
    as (macd & rsi & boll & Hrun & _ & Hrule & _ & _ & (H1 & H2 & H3) & _).
  eexists _, _, _, _, _, _, _. split; [exact Hrun|].
  split; [reflexivity|]. do 2 (split; [reflexivity|]).
  split; [repeat split; reflexivity|]. split; [exact Hrule|].
  split; [|split].
  - intros i x Hx.
    exact (rule_marker_condition _ _ _ _ _ _ _ i x Hrule H2 H3 Hx).
  - intros i Hi Hnan. apply (rule_idle _ _ _ _ _ _ _ i Hrule Hi);
      apply ltb_missing; tauto.
  - rewrite lookup_insert_ne by keys_differ. apply lookup_insert_eq.
Qed.

Lemma set_technical_indicators_rsi_witness :
  prices example_company = Some example_prices ∧ example_prices ≠ [] ∧
  ∃ c' df lastSignals rsi state buyMarker sellMarker,
    @set_technical_indicators echo_ta example_company
      = Ok (c', lastSignals) ∧
    technical_indicators c' = Some df ∧
    columns df !! "RSI" = Some (FloatCol rsi) ∧
    rsi = align (length example_prices)
                (@RSIIndicator_rsi echo_ta example_prices 20) ∧
    signal_columns df "RSI" state buyMarker sellMarker ∧
    follows_rule (below_level rsi 40) (above_level rsi 70)
                 example_prices (length example_prices)
                 state buyMarker sellMarker ∧
    (∀ i x, ¬ missing x →
       (buyMarker !! i = Some x → ltb (cell rsi i) (of_Z 40) = true) ∧
       (sellMarker !! i = Some x → ltb (of_Z 70) (cell rsi i) = true)) ∧
    (∀ i, i < length example_prices → isna (cell rsi i) = true →
       state !! i = Some (state_before state i) ∧
       buyMarker !! i = Some nan ∧ sellMarker !! i = Some nan) ∧
    lastSignals !! "RSI"
      = Some (signal_text (state_before state (length example_prices))).
Proof.
  split; [reflexivity|]. split; [apply example_prices_not_empty|].
  apply (@set_technical_indicators_rsi echo_ta
           example_company example_prices eq_refl example_prices_not_empty).
Defined.



(** ** The route *)

Section Route.
Context `{ta : TaLibrary} `{rt : Runtime}.

Lemma data_payload_table (index_dates : list date) p macd rsi boll :
  data_payload index_dates (indicator_table p macd rsi boll)
    = Ok (table_payload index_dates p macd).
Proof. reflexivity. Qed.

(** The body of the [try] on a history with at least one row. *)
Lemma index_try_dashboard symbol period hist :
  history symbol period = Ok hist → hist ≠ [] →
  let p := hist.*2 in
  ∃ (macd rsi boll : signal_series) (k : kpi),
    index_try symbol period
      = Ok (DashboardPage symbol period
              (mkDashboard (format_2f (last_price k)) (format_2f (high k))
                 (format_2f (low k)) (format_2f (change_pct k))
                 (n_points k)
                 {[ "MACD" := signal_text
                                (state_before (series_state macd) (length p));
                    "RSI" := signal_text
                               (state_before (series_state rsi) (length p));
                    "BOLL" := signal_text
                                (state_before (series_state boll) (length p)) ]}
                 (table_payload (hist.*1) p macd))) ∧
    index_kpi p = Ok k ∧ n_points k = length hist ∧
    follows_rule
      (below (align (length p) (MACD_macd p 26 12 9))
             (align (length p) (MACD_macd_signal p 26 12 9)))
      (below (align (length p) (MACD_macd_signal p 26 12 9))
             (align (length p) (MACD_macd p 26 12 9)))
      p (length p) (series_state macd) (series_buy macd) (series_sell macd) ∧
    length (series_buy macd) = length p ∧
    length (series_sell macd) = length p ∧
    ∃ lastSignals,
      set_technical_indicators (mkCompany (str_upper symbol) None (Some p))
        = Ok (mkCompany (str_upper symbol)
                        (Some (indicator_table p macd rsi boll)) (Some p),
              lastSignals).
Proof.
  intros Hhist Hne p. unfold index_try. rewrite Hhist.
  cbn [mbind result_bind].
  destruct hist as [|row rows]; [done|]. cbv beta iota.
  assert (p ≠ []) as Hp by (unfold p; discriminate).
  destruct (set_technical_indicators_table
              (mkCompany (str_upper symbol) None (Some p)) p eq_refl Hp)
    as (macd & rsi & boll & Hrun & Hrule & _ & _ & (_ & H2 & H3) & _).
  fold p. rewrite Hrun. cbn [mbind result_bind fst snd].
  unfold the_frame, the_prices.
  cbn [technical_indicators prices mbind result_bind].
  assert (∃ p0, p !! 0 = Some p0) as [p0 H0].
  { unfold p. by eexists. }
  destruct (index_kpi_run p p0 H0) as (pn & _ & Hkpi).
  rewrite Hkpi. cbn [mbind result_bind].
  rewrite data_payload_table. cbn [mbind result_bind].
  eexists macd, rsi, boll, _. split; [reflexivity|].
  split; [reflexivity|]. split; [simpl; unfold p; by rewrite length_fmap|].
  do 3 (split; [done|]). by eexists.
Qed.

End Route.

(** X14. The three outcomes of the route. When the provider raises e the
    page is the error page with "Errore: e"; when it returns a history
    without rows the page is the error page "Nessun dato trovato"; on
    every history with at least one row the dashboard is rendered, never
    an error page (also for a zero or missing opening price), and it shows
    the formatted KPI values of the Close column and one point per row.
    Symbol and period are the request arguments, "AAPL" and "1y" when
    absent or empty, upper-cased (the symbol) and stripped. *)
Theorem index_outcome `{ta : TaLibrary} `{rt : Runtime}
    (arg_symbol arg_period : option string) :
  let symbol := str_strip (str_upper (py_or arg_symbol "AAPL")) in
  let period := str_strip (py_or arg_period "1y") in
  match history symbol period with
  | Raise e =>
      index arg_symbol arg_period = ErrorPage (Errore e) symbol period
  | Ok [] =>
      index arg_symbol arg_period = ErrorPage (NoData symbol) symbol period
  | Ok (row :: rows) =>
      ∃ d k,
        index arg_symbol arg_period = DashboardPage symbol period d ∧
        index_kpi ((row :: rows).*2) = Ok k ∧
        shown_last_price d = format_2f (last_price k) ∧
        shown_high d = format_2f (high k) ∧
        shown_low d = format_2f (low k) ∧
        shown_change_pct d = format_2f (change_pct k) ∧
        shown_n_points d = S (length rows)
  end.
Proof.
  intros symbol period.
  destruct (history symbol period) as [[|row rows]|e] eqn:Hhist.
  - unfold index, index_try. fold symbol. fold period. by rewrite Hhist.
  - destruct (index_try_dashboard symbol period (row :: rows) Hhist)
      as (macd & rsi & boll & k & Htry & Hkpi & Hn & _); [done|].
    exists
      (mkDashboard (format_2f (last_price k)) (format_2f (high k))
         (format_2f (low k)) (format_2f (change_pct k)) (n_points k)
         {[ "MACD" := signal_text
                        (state_before (series_state macd)
                                      (length ((row :: rows).*2)));
            "RSI" := signal_text
                       (state_before (series_state rsi)
                                     (length ((row :: rows).*2)));
            "BOLL" := signal_text
                        (state_before (series_state boll)
                                      (length ((row :: rows).*2))) ]}
         (table_payload ((row :: rows).*1) ((row :: rows).*2) macd)), k.
    split.
    + unfold index. fold symbol. fold period. by rewrite Htry.
    + repeat (split; [done|]). exact Hn.
  - unfold index, index_try. fold symbol. fold period. by rewrite Hhist.
Qed.

Lemma example_history_run :
  @history example_runtime
    (@str_strip example_runtime
       (@str_upper example_runtime (py_or (Some "AAPL") "AAPL")))
    (@str_strip example_runtime (py_or None "1y"))
    = Ok (zip (seq 1 5) example_prices).
Proof. reflexivity. Qed.

Lemma example_history_not_empty :
  zip (seq 1 5) example_prices ≠ ([] : list (nat * float)).
Proof. discriminate. Qed.




Lemma null_or_float_value x y : null_or_float x = JFloat y → x = y ∧ isna y = false.
Proof.
  unfold null_or_float. destruct (isna x) eqn:Hx; [done|].
  by intros [= <-].
Qed.

(** X16. The markers of the price chart are those of the MACD strategy.
    On every row at least one of price_buy and price_sell is null, and a
    marker that is not null is the closing price shown on that row. *)
Theorem index_payload_markers `{ta : TaLibrary} `{rt : Runtime}
    (arg_symbol arg_period : option string) (hist : list (date * float)) :
  history (str_strip (str_upper (py_or arg_symbol "AAPL")))
          (str_strip (py_or arg_period "1y")) = Ok hist →
  hist ≠ [] →
  ∃ symbol period d macd_buy macd_sell,
    index arg_symbol arg_period = DashboardPage symbol period d ∧
    Payload.price_buy (data_json d) = null_or_float <$> macd_buy ∧
    Payload.price_sell (data_json d) = null_or_float <$> macd_sell ∧
    (∃ c' df lastSignals state,
       set_technical_indicators
         (mkCompany (str_upper symbol) None (Some (hist.*2)))
         = Ok (c', lastSignals) ∧
       technical_indicators c' = Some df ∧
       signal_columns df "MACD" state macd_buy macd_sell) ∧
    ∀ i, i < length hist →
      (Payload.price_buy (data_json d) !! i = Some JNull ∨
       Payload.price_sell (data_json d) !! i = Some JNull) ∧
      (∀ x, Payload.price_buy (data_json d) !! i = Some (JFloat x) →
            Payload.close (data_json d) !! i = Some (JFloat x)) ∧
      (∀ x, Payload.price_sell (data_json d) !! i = Some (JFloat x) →
            Payload.close (data_json d) !! i = Some (JFloat x)).
Proof.
  intros Hhist Hne.
  destruct (index_try_dashboard _ _ hist Hhist Hne)
    as (macd & rsi & boll & k & Htry & _ & Hn & Hrule & H2 & H3 & sigs & Hrun).
  assert (length (hist.*2) = length hist) as Hlen by apply length_fmap.
  eexists _, _, _, (series_buy macd), (series_sell macd). split.
  { unfold index. rewrite Htry. reflexivity. }
  cbn [data_json table_payload Payload.close Payload.price_buy
       Payload.price_sell].
  do 2 (split; [reflexivity|]). split.
  { eexists _, _, _, (series_state macd). split; [exact Hrun|].
    split; [reflexivity|]. repeat split; reflexivity. }
  intros i Hi. rewrite <- Hlen in Hi.
  destruct (Hrule i Hi) as (c & s & bm & sm & Hc & _ & Hb & Hs & Hstep).
  rewrite !(list_lookup_fmap null_or_float), Hc, Hb, Hs. simpl.
  split; [|split].
  - inversion Hstep; subst; auto.
  - intros x [= Hx]. apply null_or_float_value in Hx as [<- Hnum].
    inversion Hstep; subst; try done.
    unfold null_or_float. by rewrite Hnum.
  - intros x [= Hx]. apply null_or_float_value in Hx as [<- Hnum].
    inversion Hstep; subst; try done.
    unfold null_or_float. by rewrite Hnum.
Qed.

Lemma index_payload_markers_witness :
  @history example_runtime
    (@str_strip example_runtime
       (@str_upper example_runtime (py_or (Some "AAPL") "AAPL")))
    (@str_strip example_runtime (py_or None "1y"))
    = Ok (zip (seq 1 5) example_prices) ∧
  zip (seq 1 5) example_prices ≠ [] ∧
  ∃ symbol period d macd_buy macd_sell,
    @index echo_ta example_runtime (Some "AAPL") None
      = DashboardPage symbol period d ∧
    Payload.price_buy (data_json d) = null_or_float <$> macd_buy ∧
    Payload.price_sell (data_json d) = null_or_float <$> macd_sell ∧
    (∃ c' df lastSignals state,
       @set_technical_indicators echo_ta
         (mkCompany (@str_upper example_runtime symbol) None
                    (Some ((zip (seq 1 5) example_prices).*2)))
         = Ok (c', lastSignals) ∧
       technical_indicators c' = Some df ∧
       signal_columns df "MACD" state macd_buy macd_sell) ∧
    ∀ i, i < length (zip (seq 1 5) example_prices) →
      (Payload.price_buy (data_json d) !! i = Some JNull ∨
       Payload.price_sell (data_json d) !! i = Some JNull) ∧
      (∀ x, Payload.price_buy (data_json d) !! i = Some (JFloat x) →
            Payload.close (data_json d) !! i = Some (JFloat x)) ∧
      (∀ x, Payload.price_sell (data_json d) !! i = Some (JFloat x) →
            Payload.close (data_json d) !! i = Some (JFloat x)).
Proof.
  split; [reflexivity|]. split; [apply example_history_not_empty|].
  apply (@index_payload_markers echo_ta example_runtime (Some "AAPL") None
           (zip (seq 1 5) example_prices)
           example_history_run example_history_not_empty).
Defined.

(** ** The text for an RSI value *)

Lemma ltb_leb_trans x y z : ltb x y = true → leb y z = true → ltb x z = true.
Proof.
  destruct x as [s|s| |s m e], y as [s'|s'| |s' m' e'],
           z as [s''|s''| |s'' m'' e''];
    try destruct s; try destruct s'; try destruct s''; try done;
    unfold ltb, leb, SFltb, SFleb, SFcompare; compare_cases.
Qed.

Lemma ltb_number x y : ltb x y = true → isna x = false ∧ isna y = false.
Proof. destruct x, y; done. Qed.

(** The characters of a string, and its last five in reverse. *)
Lemma chars_app (s t : string) :
  Strings.String.list_ascii_of_string (s +:+ t)
    = Strings.String.list_ascii_of_string s ++ Strings.String.list_ascii_of_string t.
Proof.
  induction s as [|a s IH]; [done|].
  rewrite append_cons. simpl. by rewrite IH.
Qed.

Lemma ending_app (pre suffix : string) :
  5 ≤ length (Strings.String.list_ascii_of_string suffix) →
  take 5 (rev (Strings.String.list_ascii_of_string (pre +:+ suffix)))
    = take 5 (rev (Strings.String.list_ascii_of_string suffix)).
Proof.
  intros Hlen. rewrite chars_app, rev_app_distr.
  apply take_app_le. by rewrite length_rev.
Qed.

Ltac ending_of He :=
  apply (f_equal (λ s, take 5 (rev (Strings.String.list_ascii_of_string s))))
    in He;
  cbv beta in He; rewrite ?ending_app in He by (simpl; lia);
  vm_compute in He; discriminate He.

Ltac wrong_label := let He := fresh "He" in intros [? He]; ending_of He.
Ltac wrong_text := let He := fresh "He" in intros He; ending_of He.

(** X17. [rsi_interpretation] against the thresholds. The text is "N/A"
    exactly for a missing value; it ends with the Oversold label exactly
    when the value is below 30, with the Overbought label exactly when it
    is above 70, and with the Normal label exactly for a number that is
    neither. Against the RSI strategy (buy below 40, sell above 70): an
    Oversold value satisfies the buy condition, the Overbought values are
    those of the sell condition, and a number from 30 up to below 40 is
    bought by the strategy while its text says Normal Range. *)
Theorem rsi_interpretation_labels `{rt : Runtime} (val : float) :
  (rsi_interpretation val = "N/A" ↔ isna val = true) ∧
  (ends_with " (Oversold - Consider Buying)" (rsi_interpretation val)
     ↔ ltb val (of_Z 30) = true) ∧
  (ends_with " (Overbought - Consider Selling)" (rsi_interpretation val)
     ↔ ltb (of_Z 70) val = true) ∧
  (ends_with " (Normal Range)" (rsi_interpretation val)
     ↔ isna val = false ∧ ltb val (of_Z 30) = false ∧
       ltb (of_Z 70) val = false) ∧
  (ends_with " (Oversold - Consider Buying)" (rsi_interpretation val)
     → ltb val (of_Z 40) = true) ∧
  (ltb val (of_Z 30) = false → ltb val (of_Z 40) = true →
     ends_with " (Normal Range)" (rsi_interpretation val)).
Proof.
  assert (ltb (of_Z 70) val = true → ltb val (of_Z 30) = false) as Hhigh.
  { intros H70. destruct (ltb val (of_Z 30)) eqn:H30; [|done].
    pose proof (ltb_leb_trans _ _ _ H70 (ltb_leb _ _ H30)) as Habs.
    vm_compute in Habs. discriminate Habs. }
  assert (ltb val (of_Z 40) = true → ltb (of_Z 70) val = false) as Hlow.
  { intros H40. destruct (ltb (of_Z 70) val) eqn:H70; [|done].
    pose proof (ltb_leb_trans _ _ _ H70 (ltb_leb _ _ H40)) as Habs.
    vm_compute in Habs. discriminate Habs. }
  unfold rsi_interpretation.
  destruct (isna val) eqn:Hna.
  { apply isna_true in Hna. subst val.
    change (ltb nan (of_Z 30)) with false.
    change (ltb (of_Z 70) nan) with false.
    change (ltb nan (of_Z 40)) with false.
    split; [done|]. split; [split; [wrong_label | done]|].
    split; [split; [wrong_label | done]|].
    split; [split; [wrong_label | by intros [? _]]|].
    split; [wrong_label | done]. }
  destruct (ltb val (of_Z 30)) eqn:H30.
  { assert (ltb (of_Z 70) val = false) as H70
      by (destruct (ltb (of_Z 70) val);
          [discriminate (Hhigh eq_refl) | done]).
    rewrite H70.
    assert (ltb val (of_Z 40) = true) as H40
      by (eapply ltb_leb_trans; [exact H30 | by vm_compute]).
    split; [split; [wrong_text | done]|].
    split; [split; [done | intros _; by eexists]|].
    split; [split; [wrong_label | done]|].
    split; [split; [wrong_label | by intros (_ & ? & _)]|].
    split; [done | done]. }
  destruct (ltb (of_Z 70) val) eqn:H70.
  { split; [split; [wrong_text | done]|].
    split; [split; [wrong_label | done]|].
    split; [split; [done | intros _; by eexists]|].
    split; [split; [wrong_label | by intros (_ & _ & ?)]|].
    split; [wrong_label|].
    intros _ H40. apply Hlow in H40. discriminate H40. }
  split; [split; [wrong_text | done]|].
  split; [split; [wrong_label | done]|].
  split; [split; [wrong_label | done]|].
  split; [split; [done | intros _; by eexists]|].
  split; [wrong_label|]. intros _ _. by eexists.
Qed.

(** The route on the stand-in surroundings: a provider that fails, one
    without data, and one with the example prices. *)
Example index_examples :
  @index echo_ta example_runtime (Some "DOWN") None
    = ErrorPage (Errore ValueError) "DOWN" "1y" ∧
  @index echo_ta example_runtime (Some "NONE") (Some "5d")
    = ErrorPage (NoData "NONE") "NONE" "5d" ∧
  ∃ d, @index echo_ta example_runtime None (Some "")
         = DashboardPage "AAPL" "1y" d ∧
       shown_n_points d = 5 ∧
       shown_last_signals d !! "RSI" = Some "Buy" ∧
       Payload.price_buy (data_json d) = [JNull; JNull; JNull; JNull; JNull] ∧
       Payload.close (data_json d) = JFloat <$> example_prices.
Proof.
  split; [vm_compute; reflexivity|]. split; [vm_compute; reflexivity|].
  eexists. split; [vm_compute; reflexivity|].
  repeat split; vm_compute; reflexivity.
Qed.

(** A value between the two lower thresholds: bought by the RSI strategy,
    described as normal. *)
Example rsi_interpretation_example :
  @rsi_interpretation example_runtime (of_Z 35) = "# (Normal Range)" ∧
  @rsi_interpretation example_runtime (of_Z 25)
    = "# (Oversold - Consider Buying)" ∧
  @rsi_interpretation example_runtime nan = "N/A" ∧
  below_level [of_Z 35] 40 0 = true.
Proof. repeat split; vm_compute; reflexivity. Qed.
